(** * A relay between a point-of-sale frontend and the Stripe Terminal API

    Shallow embedding of the Express handlers of [src/index.js] (the main
    server, module [Server]; the older server that follows it in the same
    file, module [Legacy]) and of [src/unnamed/part_000] (the serverless
    build, module [Serverless]).

    Request bodies are arbitrary parsed JSON and are modelled as untyped
    JavaScript values.  The Stripe client is an oracle answering each call
    with a value or a thrown error; every handler runs in a small monad
    that records the calls it issues and what it writes to the console. *)

From Stdlib Require Import ZArith List String Ascii Bool Floats Uint63 Lia.
From Stdlib Require Import DecimalString.
From Stdlib Require Import Sorting.Sorted Sorting.Permutation.
Import ListNotations.

#[local] Set Warnings "-register-all".

Local Open Scope string_scope.
Local Open Scope list_scope.

(** ** JavaScript values *)

Module Js.

(** A JSON-shaped JavaScript value.  Objects keep their properties in
    insertion order; [JSON.parse] keeps one entry per key. *)
Inductive value : Type :=
| Undefined
| Null
| Bool (b : bool)
| Num (x : float)
| Str (s : string)
| Obj (fields : list (string * value))
| Arr (items : list value).

(** A thrown value: [error.code] and [error.message].  A [TypeError]
    raised by the engine has no [code]. *)
Record error : Type := mkError { code : option string; message : string }.

Definition TypeError (msg : string) : error := mkError None msg.

(** ToBoolean. *)
Definition truthy (v : value) : bool :=
  match v with
  | Undefined | Null => false
  | Bool b => b
  | Num x => negb (PrimFloat.is_zero x || PrimFloat.is_nan x)
  | Str s => negb (String.eqb s "")
  | Obj _ | Arr _ => true
  end.

(** [!v] *)
Definition js_not (v : value) : bool := negb (truthy v).

(** [a || b] and [a && b] on values. *)
Definition js_or (a b : value) : value := if truthy a then a else b.
Definition js_and (a b : value) : value := if truthy a then b else a.

Fixpoint assoc (k : string) (fields : list (string * value)) : option value :=
  match fields with
  | [] => None
  | (k', v) :: rest => if String.eqb k k' then Some v else assoc k rest
  end.

Definition of_nat (n : nat) : float := PrimFloat.of_uint63 (Uint63.of_Z (Z.of_nat n)).

(** [v.k] for a [v] that is neither [undefined] nor [null].  The only
    built-in member the handlers read by name is [length]; every other
    key they name is absent from the prototypes.  A key that is computed
    from the data is read with [member] below. *)
Definition get (v : value) (k : string) : value :=
  match v with
  | Obj fields => match assoc k fields with Some x => x | None => Undefined end
  | Arr items => if String.eqb k "length" then Num (of_nat (List.length items)) else Undefined
  | Str s => if String.eqb k "length" then Num (of_nat (String.length s)) else Undefined
  | _ => Undefined
  end.

(** [v[0]] *)
Definition first (v : value) : value :=
  match v with
  | Arr (x :: _) => x
  | Str (String c _) => Str (String c "")
  | Obj fields => match assoc "0" fields with Some x => x | None => Undefined end
  | _ => Undefined
  end.

(** [{ ...o }]: the own enumerable properties of [o]; an array or a string
    spreads into its indexed elements, other primitives into nothing. *)
Definition index_key (n : nat) : string := NilZero.string_of_uint (Nat.to_uint n).

Definition spread (o : value) : list (string * value) :=
  match o with
  | Obj fields => fields
  | Arr items => combine (map index_key (seq 0 (List.length items))) items
  | Str s =>
      combine (map index_key (seq 0 (String.length s)))
              (map (fun c => Str (String c "")) (list_ascii_of_string s))
  | _ => []
  end.

(** [{ ...o, k: v }]: the properties of [o], then [k] set to [v] (an
    existing key keeps its place). *)
Fixpoint set (k : string) (v : value) (fields : list (string * value))
  : list (string * value) :=
  match fields with
  | [] => [(k, v)]
  | (k', v') :: rest =>
      if String.eqb k k' then (k', v) :: rest else (k', v') :: set k v rest
  end.

(** [a === b].  Two objects are the same only when they are one
    reference; values decoded from different places never are. *)
Definition strict_eq (a b : value) : bool :=
  match a, b with
  | Undefined, Undefined => true
  | Null, Null => true
  | Bool x, Bool y => Bool.eqb x y
  | Num x, Num y => PrimFloat.eqb x y
  | Str x, Str y => String.eqb x y
  | _, _ => false
  end.

(** [error.code === "..."] *)
Definition code_is (e : error) (c : string) : bool :=
  match code e with
  | Some c' => String.eqb c' c
  | None => false
  end.

(** [Math.round]: the nearest integer, ties towards +infinity; NaN,
    infinities and zeros are returned as they are. *)
Definition of_Z (z : Z) : float :=
  match z with
  | Z0 => PrimFloat.zero
  | Zpos _ => PrimFloat.of_uint63 (Uint63.of_Z z)
  | Zneg p => PrimFloat.opp (PrimFloat.of_uint63 (Uint63.of_Z (Zpos p)))
  end.

Definition Math_round (x : float) : float :=
  match Prim2SF x with
  | S754_finite s m e =>
      if (0 <=? e)%Z then x
      else
        let n := ((2 * (if s then Zneg m else Zpos m) + 2 ^ (- e)) / 2 ^ (1 - e))%Z in
        if (n =? 0)%Z then (if s then PrimFloat.neg_zero else PrimFloat.zero)
        else of_Z n
  | _ => x
  end.

(** [Number.isFinite] on a number. *)
Definition isFinite (x : float) : bool :=
  negb (PrimFloat.is_nan x || PrimFloat.is_infinity x).

Section ToNumber.
(** Converting a string or an object to a number runs the engine's
    numeric-literal parser and ToPrimitive; both are left abstract. *)
Variable ToNumber_ext : value -> float.

Definition ToNumber (v : value) : float :=
  match v with
  | Undefined => PrimFloat.nan
  | Null => PrimFloat.zero
  | Bool true => PrimFloat.one
  | Bool false => PrimFloat.zero
  | Num x => x
  | Str _ | Obj _ | Arr _ => ToNumber_ext v
  end.
End ToNumber.

Section ToString.
(** Converting a number or an object to a string runs the engine's
    number printer and ToPrimitive, which throws for an object that
    cannot be converted; both are left abstract. *)
Variable ToString_ext : value -> error + string.

Definition ToString (v : value) : error + string :=
  match v with
  | Undefined => inr "undefined"
  | Null => inr "null"
  | Bool true => inr "true"
  | Bool false => inr "false"
  | Str s => inr s
  | Num _ | Obj _ | Arr _ => ToString_ext v
  end.
End ToString.

(** The members every object literal inherits from [Object.prototype]. *)
Definition Object_prototype : list string :=
  ["constructor"; "__defineGetter__"; "__defineSetter__"; "hasOwnProperty";
   "__lookupGetter__"; "__lookupSetter__"; "isPrototypeOf"; "propertyIsEnumerable";
   "toString"; "valueOf"; "__proto__"; "toLocaleString"].

(** What a read of [o[k]] finds on an object literal: a value of its own,
    or a built-in it inherits (a function; the prototype itself for
    [__proto__]). *)
Inductive slot : Type :=
| Plain (v : value)
| Builtin (name : string).

(** [o[k]] for an object literal [o] and a property key [k]. *)
Definition member (o : value) (k : string) : slot :=
  match o with
  | Obj fields =>
      match assoc k fields with
      | Some v => Plain v
      | None => if existsb (String.eqb k) Object_prototype then Builtin k else Plain Undefined
      end
  | _ => Plain (get o k)
  end.

(** ToBoolean, [a || b] and ToNumber on what a read finds: a built-in is
    truthy and converts to NaN. *)
Definition slot_or (a b : slot) : slot :=
  match a with
  | Plain v => if truthy v then a else b
  | Builtin _ => a
  end.

Definition slot_number (ToNumber_ext : value -> float) (a : slot) : float :=
  match a with
  | Plain v => ToNumber ToNumber_ext v
  | Builtin _ => PrimFloat.nan
  end.

End Js.

Import Js.

(** ** The gateway and the handler monad *)

(** The calls the handlers issue on the Stripe client. *)
Inductive Call : Type :=
| ConnectionTokensCreate
| ReadersCreate (params : value)
| LocationsCreate (params : value)
| ProductsList (params : value)
| PricesList (params : value)
| CustomersCreate (params : value)
| PaymentIntentsCreate (params : value)
| ReadersProcessPaymentIntent (readerId params : value)
| ReadersPresentPaymentMethod (reader_id params : value)
| WebhooksConstructEvent (payload sig : value) (secret : string)
| CustomersList (params : value)
| InvoicesList (params : value)
| InvoicesRetrieve (invoiceId : value)
| InvoicesAttachPayment (invoiceId params : value)
| PaymentIntentsRetrieve (id : value)
| ReadersCancelAction (readerId : value)
| PaymentIntentsCancel (id : value).

(** The client answers a call, knowing the calls made before it in the
    same request, with the resolved value or the error it throws. *)
Definition Gateway : Type := list Call -> Call -> error + value.

Inductive Level : Type := Log | Warn | Error.

(** What follows the text of a console line: a thrown error or a value. *)
Inductive Shown : Type :=
| ShownError (e : error)
| ShownValue (v : value).

(** What a handler does besides answering: calls on the client and lines
    on the console, in the order they happen. *)
Inductive Event : Type :=
| Called (c : Call)
| Console (l : Level) (text : string) (shown : list Shown).

Fixpoint calls_of (t : list Event) : list Call :=
  match t with
  | [] => []
  | Called c :: t' => c :: calls_of t'
  | Console _ _ _ :: t' => calls_of t'
  end.

(** A computation takes the trace so far and returns the extended trace
    with either a thrown error or a result. *)
Definition M (A : Type) : Type := list Event -> list Event * (error + A).

Definition ret {A} (a : A) : M A := fun t => (t, inr a).

Definition bind {A B} (m : M A) (k : A -> M B) : M B :=
  fun t =>
    match m t with
    | (t', inl e) => (t', inl e)
    | (t', inr a) => k a t'
    end.

Definition throw {A} (e : error) : M A := fun t => (t, inl e).

(** [try { m } catch (error) { h error }] *)
Definition try_catch {A} (m : M A) (h : error -> M A) : M A :=
  fun t =>
    match m t with
    | (t', inl e) => h e t'
    | (t', inr a) => (t', inr a)
    end.

Definition console (l : Level) (text : string) (shown : list Shown) : M unit :=
  fun t => (t ++ [Console l text shown], inr tt).

Declare Scope js_scope.
Delimit Scope js_scope with js.
Notation "x <- m ;; k" := (bind m (fun x => k))
  (at level 61, m at next level, right associativity) : js_scope.
Notation "m ;;; k" := (bind m (fun _ => k))
  (at level 61, right associativity) : js_scope.
Local Open Scope js_scope.

(** [v.k]: reading a property of [undefined] or [null] throws. *)
Definition prop (v : value) (k : string) : M value :=
  match v with
  | Undefined =>
      throw (TypeError ("Cannot read properties of undefined (reading '" ++ k ++ "')"))
  | Null =>
      throw (TypeError ("Cannot read properties of null (reading '" ++ k ++ "')"))
  | _ => ret (get v k)
  end.

(** [v?.k] *)
Definition opt_prop (v : value) (k : string) : value :=
  match v with
  | Undefined | Null => Undefined
  | _ => get v k
  end.

(** [const { first_key, ... } = v], where [what] is the source text of
    [v]: destructuring [undefined] or [null] throws. *)
Definition destructure (v : value) (what first_key : string) : M value :=
  match v with
  | Undefined =>
      throw (TypeError ("Cannot destructure property '" ++ first_key ++ "' of '"
                        ++ what ++ "' as it is undefined."))
  | Null =>
      throw (TypeError ("Cannot destructure property '" ++ first_key ++ "' of '"
                        ++ what ++ "' as it is null."))
  | _ => ret v
  end.

(** [let stripe]: the client, or [undefined] when start-up failed
    (src/index.js, lines 6-14). *)
Definition Stripe : Type := option Gateway.

(** [await stripe.<resource>.<method>(...)]: on an undefined [stripe] the
    member read throws before anything is sent. *)
Definition stripe_call (stripe : Stripe) (resource : string) (c : Call) : M value :=
  match stripe with
  | None =>
      throw (TypeError ("Cannot read properties of undefined (reading '"
                        ++ resource ++ "')"))
  | Some g => fun t => (t ++ [Called c], g (calls_of t) c)
  end.

(** ** Requests and responses *)

Record Request : Type := mkRequest {
  body : value;
  query : value;
  params : value;
  headers : value
}.

Record Response : Type := mkResponse { status : Z; json : value }.

(** [process.env] *)
Record Env : Type := mkEnv {
  STRIPE_WEBHOOK_SECRET : option string;
  NODE_ENV : option string
}.

(** [res.status(n).json(v)] and [res.json(v)] *)
Definition respond (n : Z) (v : value) : M Response := ret (mkResponse n v).
Definition res_json (v : value) : M Response := respond 200 v.

Definition not_initialized_message : string :=
  "Stripe is not initialized. Please check your configuration.".

Definition not_initialized : Response :=
  mkResponse 500 (Obj [("error", Str not_initialized_message)]).

(** Running a handler on a fresh request. *)
Definition run {A} (m : M A) : list Event * (error + A) := m [].

(** Reading [stripe.<resource>] on its own, before the arguments of a call
    are evaluated: it throws when [stripe] is undefined. *)
Definition stripe_ready (stripe : Stripe) (resource : string) : M unit :=
  match stripe with
  | None =>
      throw (TypeError ("Cannot read properties of undefined (reading '"
                        ++ resource ++ "')"))
  | Some _ => ret tt
  end.

(** ** Start-up (src/index.js, lines 6-14) *)

(** [stripe] is set from [process.env.STRIPE_SECRET_KEY]; [require_stripe]
    stands for [require("stripe")], which returns the client or throws.  A
    failure is logged and leaves [stripe] undefined. *)
Definition init (STRIPE_SECRET_KEY : option string)
  (require_stripe : string -> error + Gateway) : M Stripe :=
  try_catch
    (match STRIPE_SECRET_KEY with
     | None => throw (mkError None "STRIPE_SECRET_KEY is not set")
     | Some key =>
         if String.eqb key "" then throw (mkError None "STRIPE_SECRET_KEY is not set")
         else
           match require_stripe key with
           | inl err => throw err
           | inr client => ret (Some client)
           end
     end)
    (fun err =>
       console Error "Stripe init failed:" [ShownValue (Str (message err))] ;;;
       ret None).

(** ** Array methods with callbacks that may throw *)

Fixpoint mapM {A B} (f : A -> M B) (l : list A) : M (list B) :=
  match l with
  | [] => ret []
  | x :: l' => y <- f x ;; ys <- mapM f l' ;; ret (y :: ys)
  end.

(** [Array.prototype.find]: the first element the predicate accepts, or
    [undefined]. *)
Fixpoint findM (f : value -> M bool) (l : list value) : M value :=
  match l with
  | [] => ret Undefined
  | x :: l' => b <- f x ;; if b then ret x else findM f l'
  end.

(** Calling [v.what(...)], written [path.what] in the source, on a [v]
    that is no array. *)
Definition not_a_function {A} (path what : string) (v : value) : M A :=
  match v with
  | Undefined =>
      throw (TypeError ("Cannot read properties of undefined (reading '" ++ what ++ "')"))
  | Null =>
      throw (TypeError ("Cannot read properties of null (reading '" ++ what ++ "')"))
  | _ => throw (TypeError (path ++ "." ++ what ++ " is not a function"))
  end.

Definition Array_map (path : string) (v : value) (f : value -> M value) : M value :=
  match v with
  | Arr items => r <- mapM f items ;; ret (Arr r)
  | _ => not_a_function path "map" v
  end.

Definition Array_find (path : string) (v : value) (f : value -> M bool) : M value :=
  match v with
  | Arr items => findM f items
  | _ => not_a_function path "find" v
  end.

(** [Array.prototype.sort] with a comparator.  The sort is stable; an
    element [x] moves behind [y] only when [compare(x, y) > 0], and a NaN
    result counts as zero.  Undefined elements go last without being
    compared.  Which pairs an engine compares is its own choice: for a
    comparator that does not throw and orders by a rank every stable sort
    returns the list computed here. *)
Fixpoint insert (compare : value -> value -> M float) (x : value) (l : list value)
  : M (list value) :=
  match l with
  | [] => ret [x]
  | y :: l' =>
      c <- compare x y ;;
      if PrimFloat.ltb PrimFloat.zero c
      then (r <- insert compare x l' ;; ret (y :: r))
      else ret (x :: y :: l')
  end.

Fixpoint sort_list (compare : value -> value -> M float) (l : list value)
  : M (list value) :=
  match l with
  | [] => ret []
  | x :: l' => s <- sort_list compare l' ;; insert compare x s
  end.

Definition is_undefined (v : value) : bool :=
  match v with Undefined => true | _ => false end.

Definition Array_sort (path : string) (v : value) (compare : value -> value -> M float)
  : M value :=
  match v with
  | Arr items =>
      s <- sort_list compare (filter (fun x => negb (is_undefined x)) items) ;;
      ret (Arr (s ++ filter is_undefined items))
  | _ => not_a_function path "sort" v
  end.

(** Using the result of an engine conversion: an error is thrown. *)
Definition lift {A} (r : error + A) : M A :=
  match r with
  | inl e => throw e
  | inr a => ret a
  end.

(** ** The main server (src/index.js, lines 1-534) *)

Module Server.

Section Handlers.

(** The engine's conversion of strings and objects to numbers. *)
Variable ToNumber_ext : value -> float.
(** The engine's conversion of numbers and objects to strings. *)
Variable ToString_ext : value -> error + string.
(** [let stripe], set once at start-up. *)
Variable stripe : Stripe.
(** [process.env] *)
Variable env : Env.

Abbreviation ToNumber := (Js.ToNumber ToNumber_ext).
Abbreviation ToString := (Js.ToString ToString_ext).

(** [!stripe] *)
Definition uninitialized : bool :=
  match stripe with None => true | Some _ => false end.

(** POST /api/connection-token *)
Definition connection_token (req : Request) : M Response :=
  try_catch
    (if uninitialized then ret not_initialized
     else
       token <- stripe_call stripe "terminal" ConnectionTokensCreate ;;
       secret <- prop token "secret" ;;
       res_json (Obj [("secret", secret)]))
    (fun error =>
       console Error "Error creating connection token:" [ShownError error] ;;;
       respond 500 (Obj [("error", Str "Failed to create connection token");
                         ("details", Str (message error))])).

(** [error?.message || "something went wrong"] *)
Definition message_or_default (e : error) : value :=
  js_or (Str (message e)) (Str "something went wrong").

(** POST /api/register-reader *)
Definition register_reader (req : Request) : M Response :=
  try_catch
    (if uninitialized then ret not_initialized
     else
       registration_code <- prop (body req) "registration_code" ;;
       if js_not registration_code
       then respond 400 (Obj [("error", Str "Registration code is required")])
       else
         location_id <- prop (body req) "location_id" ;;
         if js_not location_id
         then respond 400 (Obj [("error", Str "Location ID is required")])
         else
           reader <- stripe_call stripe "terminal"
                       (ReadersCreate (Obj [("registration_code", registration_code);
                                            ("location", location_id)])) ;;
           res_json reader)
    (fun error =>
       console Error "Error registering reader:" [ShownError error] ;;;
       if code_is error "resource_missing"
       then respond 404 (Obj [("error", message_or_default error)])
       else if code_is error "invalid_request_error"
       then respond 400 (Obj [("error", message_or_default error)])
       else respond 500 (Obj [("error", Str "Failed to register reader");
                              ("details", Str (message error))])).

(** The six fields of a location, as the handler names them. *)
Definition location_fields : list string :=
  ["label"; "line1"; "city"; "state"; "country"; "postal_code"].

(** POST /api/create-location *)
Definition create_location (req : Request) : M Response :=
  try_catch
    (if uninitialized then ret not_initialized
     else
       b <- destructure (body req) "req.body" "label" ;;
       let label := get b "label" in
       let line1 := get b "line1" in
       let city := get b "city" in
       let state := get b "state" in
       let country := get b "country" in
       let postal_code := get b "postal_code" in
       if js_not label || js_not line1 || js_not city || js_not state
          || js_not country || js_not postal_code
       then respond 400 (Obj [("error", Str "Missing required address fields");
                              ("required", Arr (map Str location_fields))])
       else
         location <- stripe_call stripe "terminal"
                       (LocationsCreate
                          (Obj [("display_name", label);
                                ("address", Obj [("line1", line1);
                                                 ("city", city);
                                                 ("state", state);
                                                 ("country", country);
                                                 ("postal_code", postal_code)])])) ;;
         res_json location)
    (fun error =>
       console Error "Error creating location:" [ShownError error] ;;;
       if code_is error "invalid_request_error"
       then respond 400 (Obj [("error", Str "Invalid address information provided")])
       else respond 500 (Obj [("error", Str "Failed to create location");
                              ("details", Str (message error))])).

(** The callback of [prices.data.find]:
    [p.product === product.id && p.unit_amount]. *)
Definition price_matches (product p : value) : M bool :=
  p_product <- prop p "product" ;;
  product_id <- prop product "id" ;;
  if strict_eq p_product product_id
  then (unit_amount <- prop p "unit_amount" ;; ret (truthy unit_amount))
  else ret false.

(** The object built for one product, given the price found for it. *)
Definition product_entry (product price : value) : M value :=
  id <- prop product "id" ;;
  name <- prop product "name" ;;
  description <- prop product "description" ;;
  images <- prop product "images" ;;
  ret (Obj [("id", id);
            ("name", name);
            ("description", description);
            ("price", if truthy price
                      then Num (PrimFloat.div (ToNumber (get price "unit_amount")) 100%float)
                      else Num PrimFloat.zero);
            ("currency", if truthy price then get price "currency" else Str "usd");
            ("priceId", js_or (opt_prop price "id") Null);
            ("image", if truthy images
                         && PrimFloat.ltb PrimFloat.zero (ToNumber (get images "length"))
                      then first images else Str "")]).

(** GET /api/products *)
Definition products (req : Request) : M Response :=
  try_catch
    (if uninitialized then ret not_initialized
     else
       products <- stripe_call stripe "products"
                     (ProductsList (Obj [("active", Bool true); ("limit", Num 100%float)])) ;;
       prices <- stripe_call stripe "prices"
                   (PricesList (Obj [("active", Bool true); ("limit", Num 100%float)])) ;;
       products_data <- prop products "data" ;;
       productMap <- Array_map "products.data" products_data
                       (fun product =>
                          prices_data <- prop prices "data" ;;
                          price <- Array_find "prices.data" prices_data (price_matches product) ;;
                          product_entry product price) ;;
       res_json productMap)
    (fun error =>
       console Error "Error fetching products:" [ShownError error] ;;;
       respond 500 (Obj [("error", Str "Failed to fetch products");
                         ("details", Str (message error))])).

(** POST /api/create-payment-intent *)
Definition create_payment_intent (req : Request) : M Response :=
  try_catch
    (if uninitialized then ret not_initialized
     else
       b <- destructure (body req) "req.body" "amount" ;;
       let amount := get b "amount" in
       let metadata := get b "metadata" in
       m <- destructure metadata "metadata" "name" ;;
       let name := get m "name" in
       let email := get m "email" in
       if js_not name || js_not email
       then respond 400 (Obj [("error", Str "Customer email and name is required")])
       else if js_not amount || PrimFloat.leb (ToNumber amount) PrimFloat.zero
       then respond 400
              (Obj [("error", Str "Valid amount is required (must be greater than 0)")])
       else
         customer <- stripe_call stripe "customers"
                       (CustomersCreate (Obj [("email", email); ("name", name)])) ;;
         intent <- stripe_call stripe "paymentIntents"
                     (PaymentIntentsCreate
                        (Obj [("amount",
                               Num (Math_round (PrimFloat.mul (ToNumber amount) 100%float)));
                              ("currency", Str "usd");
                              ("payment_method_types", Arr [Str "card_present"]);
                              ("metadata",
                               js_or (Obj (set "name" email (spread metadata))) (Obj []));
                              ("receipt_email", email);
                              ("customer", opt_prop customer "id");
                              ("shipping",
                               Obj [("name", name);
                                    ("address", Obj [("line1", Str "");
                                                     ("city", Str "");
                                                     ("state", Str "");
                                                     ("postal_code", Str "");
                                                     ("country", Str "")])])])) ;;
         paymentIntentId <- prop intent "id" ;;
         clientSecret <- prop intent "client_secret" ;;
         res_json (Obj [("paymentIntentId", paymentIntentId);
                        ("clientSecret", clientSecret)]))
    (fun error =>
       console Error "Error creating payment intent:" [ShownError error] ;;;
       if code_is error "parameter_invalid_integer"
       then respond 400 (Obj [("error", Str "Invalid amount provided")])
       else respond 500 (Obj [("error", Str "Failed to create payment intent");
                              ("details", Str (message error))])).

(** POST /api/process-payment *)
Definition process_payment (req : Request) : M Response :=
  try_catch
    (if uninitialized then ret not_initialized
     else
       b <- destructure (body req) "req.body" "readerId" ;;
       let readerId := get b "readerId" in
       let paymentIntentId := get b "paymentIntentId" in
       if js_not readerId
       then respond 400
              (Obj [("error", Str "Reader is required please ensure reader is connected")])
       else if js_not paymentIntentId
       then respond 400 (Obj [("error", Str "Payment Intent ID is required")])
       else
         reader <- stripe_call stripe "terminal"
                     (ReadersProcessPaymentIntent readerId
                        (Obj [("payment_intent", paymentIntentId)])) ;;
         res_json reader)
    (fun error =>
       console Error "Error processing payment:" [ShownError error] ;;;
       if code_is error "resource_missing"
       then respond 404 (Obj [("error", Str "Reader or payment intent not found")])
       else if code_is error "terminal_reader_timeout"
       then respond 409
              (Obj [("error",
                     Str "Reader connection timeout please check the reader connection")])
       else if code_is error "terminal_reader_busy"
       then respond 409
              (Obj [("error", Str "Reader is currently busy with another operation")])
       else if code_is error "terminal_reader_offline"
       then respond 503
              (Obj [("error", Str "Reader is offline. Please check the connection.")])
       else respond 500 (Obj [("error", Str "Failed to process payment");
                              ("details", Str (message error))])).

(** POST /api/simulate-payment *)
Definition simulate_payment (req : Request) : M Response :=
  try_catch
    (if uninitialized then ret not_initialized
     else
       b <- destructure (body req) "req.body" "reader_id" ;;
       let reader_id := get b "reader_id" in
       if js_not reader_id
       then respond 400 (Obj [("error", Str "Reader ID is required")])
       else
         reader <- stripe_call stripe "testHelpers"
                     (ReadersPresentPaymentMethod reader_id
                        (Obj [("card_present", Obj [("number", Str "4242424242424242")]);
                              ("type", Str "card_present")])) ;;
         res_json reader)
    (fun error =>
       console Error "Error simulating payment:" [ShownError error] ;;;
       if code_is error "resource_missing"
       then respond 404 (Obj [("error", Str "Reader not found")])
       else respond 500 (Obj [("error", Str "Failed to simulate payment");
                              ("details", Str (message error))])).

(** [!process.env.STRIPE_WEBHOOK_SECRET]: unset or empty. *)
Definition webhook_secret : option string :=
  match STRIPE_WEBHOOK_SECRET env with
  | Some s => if String.eqb s "" then None else Some s
  | None => None
  end.

(** POST /webhook, first [try]: either the handler has answered already,
    or the verified event goes on to the dispatch. *)
Definition webhook_verify (req : Request) : M (Response + value) :=
  let sig := get (headers req) "stripe-signature" in
  try_catch
    (match webhook_secret with
     | None =>
         console Error "STRIPE_WEBHOOK_SECRET is not set" [] ;;;
         r <- respond 500 (Obj [("error", Str "Webhook secret not configured")]) ;;
         ret (inl r)
     | Some secret =>
         event <- stripe_call stripe "webhooks"
                    (WebhooksConstructEvent (body req) sig secret) ;;
         ret (inr event)
     end)
    (fun err =>
       console Error ("Webhook signature verification failed: " ++ message err) [] ;;;
       r <- respond 400 (Obj [("error", Str ("Webhook Error: " ++ message err))]) ;;
       ret (inl r)).

(** POST /webhook, second [try]: the switch over [event.type]. *)
Definition webhook_dispatch (event : value) : M Response :=
  try_catch
    (type <- prop event "type" ;;
     (if strict_eq type (Str "payment_intent.succeeded")
      then console Log "PaymentIntent was successful!" []
      else if strict_eq type (Str "payment_intent.payment_failed")
      then console Log "PaymentIntent failed." []
      else (text <- lift (ToString type) ;;
            console Warn ("Unhandled event type: " ++ text) [])) ;;;
     res_json (Obj [("received", Bool true)]))
    (fun error =>
       console Error "Error processing webhook:" [ShownError error] ;;;
       respond 500 (Obj [("error", Str "Failed to process webhook")])).

Definition webhook (req : Request) : M Response :=
  r <- webhook_verify req ;;
  match r with
  | inl answered => ret answered
  | inr event => webhook_dispatch event
  end.

(** GET /api/customers *)
Definition customers (req : Request) : M Response :=
  try_catch
    (if uninitialized then ret not_initialized
     else
       customers <- stripe_call stripe "customers"
                      (CustomersList (Obj [("limit", Num 20%float)])) ;;
       data <- prop customers "data" ;;
       res_json data)
    (fun error =>
       console Error "Error fetching customers:" [ShownError error] ;;;
       respond 500 (Obj [("error", Str "Failed to fetch customers");
                         ("details", Str (message error))])).

Definition statusOrder : value :=
  Obj [("open", Num 0%float); ("draft", Num 1%float); ("uncollectible", Num 2%float);
       ("paid", Num 3%float); ("void", Num 4%float)].

(** [statusOrder[status] || 99], for a status already turned into a
    property key. *)
Definition status_rank (key : string) : slot :=
  slot_or (member statusOrder key) (Plain (Num 99%float)).

(** The comparator handed to [invoices.data.sort]. *)
Definition compare_invoices (a b : value) : M float :=
  b_status <- prop b "status" ;;
  b_key <- lift (ToString b_status) ;;
  a_status <- prop a "status" ;;
  a_key <- lift (ToString a_status) ;;
  ret (PrimFloat.sub (slot_number ToNumber_ext (status_rank b_key))
                     (slot_number ToNumber_ext (status_rank a_key))).

(** GET /api/invoices *)
Definition invoices (req : Request) : M Response :=
  try_catch
    (if uninitialized then ret not_initialized
     else
       invoices <- stripe_call stripe "invoices"
                     (InvoicesList (Obj [("limit", Num 40%float)])) ;;
       data <- prop invoices "data" ;;
       sortedInvoices <- Array_sort "invoices.data" data compare_invoices ;;
       res_json sortedInvoices)
    (fun error =>
       console Error "Error fetching invoices:" [ShownError error] ;;;
       respond 500 (Obj [("error", Str "Failed to fetch invoices");
                         ("details", Str (message error))])).

(** POST /api/invoices/:id/pay *)
Definition invoices_pay (req : Request) : M Response :=
  try_catch
    (if uninitialized then ret not_initialized
     else
       invoiceId <- prop (params req) "id" ;;
       if js_not invoiceId
       then respond 400 (Obj [("error", Str "Invoice ID is required")])
       else
         invoice <- stripe_call stripe "invoices" (InvoicesRetrieve invoiceId) ;;
         if js_not invoice
         then respond 404 (Obj [("error", Str "Invoice not found")])
         else
           intent <- stripe_call stripe "paymentIntents"
                       (PaymentIntentsCreate
                          (Obj [("amount", get invoice "amount_due");
                                ("currency", get invoice "currency");
                                ("customer", get invoice "customer");
                                ("payment_method_types", Arr [Str "card_present"])])) ;;
           intent_id <- prop intent "id" ;;
           _ <- stripe_call stripe "invoices"
                  (InvoicesAttachPayment invoiceId
                     (Obj [("payment_intent", intent_id);
                           ("expand", Arr [Str "payments"])])) ;;
           res_json (Obj [("paymentIntentId", intent_id)]))
    (fun error =>
       console Error "Error processing invoice payment:" [ShownError error] ;;;
       if code_is error "resource_missing"
       then respond 404 (Obj [("error", Str "Invoice not found")])
       else if code_is error "invalid_request_error"
       then respond 400 (Obj [("error", Str "Invalid invoice or customer information")])
       else respond 500 (Obj [("error", Str "Failed to process invoice payment");
                              ("details", Str (message error))])).

(** POST /api/cancel-payment-intent *)
Definition cancel_payment_intent (req : Request) : M Response :=
  try_catch
    (if uninitialized then ret not_initialized
     else
       b <- destructure (body req) "req.body" "paymentIntentId" ;;
       let paymentIntentId := get b "paymentIntentId" in
       let readerId := get b "readerId" in
       if js_not paymentIntentId || js_not readerId
       then respond 400
              (Obj [("error", Str "Both paymentIntentId and readerId are required")])
       else
         intent <- stripe_call stripe "paymentIntents"
                     (PaymentIntentsRetrieve paymentIntentId) ;;
         intent_status <- prop intent "status" ;;
         if strict_eq intent_status (Str "succeeded")
         then respond 409
                (Obj [("error", Str "Payment already succeeded and cannot be canceled");
                      ("status", Str "succeeded");
                      ("paymentIntent", intent)])
         else if strict_eq intent_status (Str "cancelled")
         then respond 200
                (Obj [("error", Str "Payment already cancelled");
                      ("status", Str "succeeded");
                      ("paymentIntent", intent)])
         else
           reader <- stripe_call stripe "terminal" (ReadersCancelAction readerId) ;;
           cancelledIntent <- stripe_call stripe "paymentIntents"
                                (PaymentIntentsCancel paymentIntentId) ;;
           res_json (Obj [("message", Str "Payment canceled successfully");
                          ("reader", reader);
                          ("cancelledIntent", cancelledIntent)]))
    (fun error =>
       console Error "Error in cancel-payment-intent:" [ShownError error] ;;;
       respond 500 (Obj [("error", Str (message error))])).

(** GET /api/payment-intent-status *)
Definition payment_intent_status (req : Request) : M Response :=
  try_catch
    (q <- destructure (query req) "req.query" "id" ;;
     let id := get q "id" in
     intent <- stripe_call stripe "paymentIntents" (PaymentIntentsRetrieve id) ;;
     intent_status <- prop intent "status" ;;
     res_json (Obj [("status", intent_status)]))
    (fun error =>
       respond 500 (Obj [("error", Str "Failed to fetch payment intent status")])).

End Handlers.

(** The routes that use the Stripe client. *)
Inductive Route : Type :=
| ConnectionToken | RegisterReader | CreateLocation | Products
| CreatePaymentIntent | ProcessPayment | SimulatePayment | Webhook
| Customers | Invoices | InvoicesPay | CancelPaymentIntent
| PaymentIntentStatus.

Definition handle (ToNumber_ext : value -> float) (ToString_ext : value -> error + string)
  (stripe : Stripe) (env : Env) (route : Route) (req : Request) : M Response :=
  match route with
  | ConnectionToken => connection_token stripe req
  | RegisterReader => register_reader stripe req
  | CreateLocation => create_location stripe req
  | Products => products ToNumber_ext stripe req
  | CreatePaymentIntent => create_payment_intent ToNumber_ext stripe req
  | ProcessPayment => process_payment stripe req
  | SimulatePayment => simulate_payment stripe req
  | Webhook => webhook ToString_ext stripe env req
  | Customers => customers stripe req
  | Invoices => invoices ToNumber_ext ToString_ext stripe req
  | InvoicesPay => invoices_pay stripe req
  | CancelPaymentIntent => cancel_payment_intent stripe req
  | PaymentIntentStatus => payment_intent_status stripe req
  end.

(** *** The way of a webhook delivery through the middleware

    [app.use(express.json())] and [app.use(express.urlencoded(...))]
    (lines 19-20) run on every request before the routes; the route
    /webhook then runs [express.raw({ type: "application/json" })] (line
    321) and the handler.  ([cors()] and [express.static] before them
    leave a POST as it is.)  The parsers are those of Express 4: each
    leaves alone a body that an earlier one has parsed ([req._body]), sets
    an unset [req.body] to [{}], and parses only a body of its own type.
    (Express 5 leaves an unset body undefined; in neither case is it the
    body as it was sent.) *)

(** A request as it reaches the application: whether it announces a body
    (a Content-Length or Transfer-Encoding header), whether its
    Content-Type is that of JSON or of a url-encoded form, the text of the
    body, and the headers. *)
Record Incoming : Type := mkIncoming {
  has_body : bool;
  json_type : bool;
  form_type : bool;
  payload : string;
  incoming_headers : value
}.

(** [req.body] and [req._body] between two parsers. *)
Record Parsed : Type := mkParsed { parsed_body : value; parsed_already : bool }.

(** The first character of a text after white space, which the strict
    mode of [express.json()] looks at. *)
Definition white_space (c : ascii) : bool :=
  existsb (Ascii.eqb c) [" "; "009"; "010"; "013"]%char.

Fixpoint firstchar (text : string) : option ascii :=
  match text with
  | EmptyString => None
  | String c rest => if white_space c then firstchar rest else Some c
  end.

Definition starts_document (text : string) : bool :=
  match firstchar text with
  | Some c => Ascii.eqb c "{"%char || Ascii.eqb c "["%char
  | None => false
  end.

Section Middleware.

(** [JSON.parse], the error of the strict mode for a text that starts
    neither an object nor an array, and the parser of url-encoded forms,
    which returns an object. *)
Variable JSON_parse : string -> error + value.
Variable strict_error : string -> error.
Variable parse_form : string -> list (string * value).

(** [req.body = req.body || {}] *)
Definition or_empty (b : value) : value := js_or b (Obj []).

(** [express.json()]: an empty body parses to [{}]; in strict mode, the
    default, the text has to start an object or an array.  A failure goes
    to the error handler. *)
Definition express_json (inc : Incoming) (st : Parsed) : error + Parsed :=
  if parsed_already st then inr st
  else if negb (has_body inc) || negb (json_type inc)
  then inr (mkParsed (or_empty (parsed_body st)) false)
  else if String.eqb (payload inc) "" then inr (mkParsed (Obj []) true)
  else if negb (starts_document (payload inc)) then inl (strict_error (payload inc))
  else
    match JSON_parse (payload inc) with
    | inl err => inl err
    | inr parsed => inr (mkParsed parsed true)
    end.

(** [express.urlencoded({ extended: true })] *)
Definition express_urlencoded (inc : Incoming) (st : Parsed) : Parsed :=
  if parsed_already st then st
  else if negb (has_body inc) || negb (form_type inc)
  then mkParsed (or_empty (parsed_body st)) false
  else mkParsed (Obj (parse_form (payload inc))) true.

(** [express.raw({ type: "application/json" })]: the bytes as they came,
    for a body of type JSON that nothing has parsed yet. *)
Definition express_raw (inc : Incoming) (st : Parsed) : Parsed :=
  if parsed_already st then st
  else if negb (has_body inc) || negb (json_type inc)
  then mkParsed (or_empty (parsed_body st)) false
  else mkParsed (Str (payload inc)) true.

(** The error-handling middleware (lines 509-518). *)
Definition error_handler (env : Env) (error : error) : M Response :=
  console Error "Unhandled error:" [ShownError error] ;;;
  respond 500
    (Obj [("error", Str "Internal server error");
          ("details",
           Str (match NODE_ENV env with
                | Some mode =>
                    if String.eqb mode "development" then message error
                    else "Something went wrong"
                | None => "Something went wrong"
                end))]).

(** POST /webhook, from the arrival of the request to the response. *)
Definition webhook_route (ToString_ext : value -> error + string) (stripe : Stripe)
  (env : Env) (inc : Incoming) : M Response :=
  match express_json inc (mkParsed Undefined false) with
  | inl err => error_handler env err
  | inr after_json =>
      let after_raw := express_raw inc (express_urlencoded inc after_json) in
      webhook ToString_ext stripe env
        (mkRequest (parsed_body after_raw) (Obj []) (Obj []) (incoming_headers inc))
  end.

End Middleware.

End Server.

(** ** The serverless build (src/unnamed/part_000) *)

Module Serverless.

Section Handlers.

Variable ToNumber_ext : value -> float.
Variable stripe : Stripe.

Abbreviation ToNumber := (Js.ToNumber ToNumber_ext).

(** GET /api/hello *)
Definition hello (req : Request) : M Response :=
  res_json (Obj [("message", Str "Hello from Express on Vercel!")]).

(** POST /api/connection-token: no check of [stripe], no [try]. *)
Definition connection_token (req : Request) : M Response :=
  token <- stripe_call stripe "terminal" ConnectionTokensCreate ;;
  secret <- prop token "secret" ;;
  res_json (Obj [("secret", secret)]).

(** POST /api/register-reader: the fields are forwarded unchecked. *)
Definition register_reader (req : Request) : M Response :=
  stripe_ready stripe "terminal" ;;;
  registration_code <- prop (body req) "registration_code" ;;
  location_id <- prop (body req) "location_id" ;;
  reader <- stripe_call stripe "terminal"
              (ReadersCreate (Obj [("registration_code", registration_code);
                                   ("location", location_id)])) ;;
  res_json reader.

(** POST /api/create-location: the fields are checked before [stripe] is
    touched. *)
Definition create_location (req : Request) : M Response :=
  label <- prop (body req) "label" ;;
  let b := body req in
  if js_not label || js_not (get b "line1") || js_not (get b "city")
     || js_not (get b "state") || js_not (get b "country")
     || js_not (get b "postal_code")
  then respond 400 (Obj [("error", Str "Missing required address fields")])
  else
    location <- stripe_call stripe "terminal"
                  (LocationsCreate
                     (Obj [("display_name", label);
                           ("address", Obj [("line1", get b "line1");
                                            ("city", get b "city");
                                            ("state", get b "state");
                                            ("country", get b "country");
                                            ("postal_code", get b "postal_code")])])) ;;
    res_json location.

(** GET /api/products: the merge of the main server, unguarded. *)
Definition products (req : Request) : M Response :=
  products <- stripe_call stripe "products"
                (ProductsList (Obj [("active", Bool true); ("limit", Num 100%float)])) ;;
  prices <- stripe_call stripe "prices"
              (PricesList (Obj [("active", Bool true); ("limit", Num 100%float)])) ;;
  products_data <- prop products "data" ;;
  productMap <- Array_map "products.data" products_data
                  (fun product =>
                     prices_data <- prop prices "data" ;;
                     price <- Array_find "prices.data" prices_data (Server.price_matches product) ;;
                     Server.product_entry ToNumber_ext product price) ;;
  res_json productMap.

(** POST /api/create-payment-intent.  Only the gateway call sits inside a
    [try]; nothing is checked about [stripe], and no customer is made. *)
Definition create_payment_intent (req : Request) : M Response :=
  b <- destructure (body req) "req.body" "amount" ;;
  let amount := get b "amount" in
  let metadata := get b "metadata" in
  let parsedAmount := ToNumber amount in
  let amountInCents := Math_round (PrimFloat.mul parsedAmount 100%float) in
  if negb (isFinite parsedAmount) || PrimFloat.leb parsedAmount PrimFloat.zero
  then respond 400 (Obj [("error", Str "Invalid amount provided.")])
  else
    try_catch
      (intent <- stripe_call stripe "paymentIntents"
                   (PaymentIntentsCreate
                      (Obj [("amount", Num amountInCents);
                            ("currency", Str "usd");
                            ("payment_method_types", Arr [Str "card_present"]);
                            ("metadata", js_or metadata (Obj []))])) ;;
       paymentIntentId <- prop intent "id" ;;
       clientSecret <- prop intent "client_secret" ;;
       res_json (Obj [("paymentIntentId", paymentIntentId);
                      ("clientSecret", clientSecret)]))
      (fun err =>
         console Error "Stripe error:" [ShownError err] ;;;
         respond 500 (Obj [("error", Str "Failed to create payment intent.")])).

(** POST /api/process-payment: every failure of the call is a 500. *)
Definition process_payment (req : Request) : M Response :=
  b <- destructure (body req) "req.body" "readerId" ;;
  let readerId := get b "readerId" in
  let paymentIntentId := get b "paymentIntentId" in
  try_catch
    (reader <- stripe_call stripe "terminal"
                 (ReadersProcessPaymentIntent readerId
                    (Obj [("payment_intent", paymentIntentId)])) ;;
     res_json reader)
    (fun error =>
       console Error "" [ShownError error] ;;;
       respond 500 (Obj [("error", Str "Failed to process payment")])).

(** POST /api/simulate-payment *)
Definition simulate_payment (req : Request) : M Response :=
  b <- destructure (body req) "req.body" "reader_id" ;;
  let reader_id := get b "reader_id" in
  reader <- stripe_call stripe "testHelpers"
              (ReadersPresentPaymentMethod reader_id
                 (Obj [("card_present", Obj [("number", Str "4242424242424242")]);
                       ("type", Str "card_present")])) ;;
  res_json reader.

(** GET /api/customers *)
Definition customers (req : Request) : M Response :=
  customers <- stripe_call stripe "customers"
                 (CustomersList (Obj [("limit", Num 20%float)])) ;;
  data <- prop customers "data" ;;
  res_json data.

(** GET /api/invoices: the list as the gateway gives it, unsorted. *)
Definition invoices (req : Request) : M Response :=
  console Log "====================================" [] ;;;
  console Log "TEST" [] ;;;
  console Log "====================================" [] ;;;
  invoices <- stripe_call stripe "invoices"
                (InvoicesList (Obj [("limit", Num 20%float)])) ;;
  data <- prop invoices "data" ;;
  res_json data.

(** POST /api/invoices/:id/pay: the intent is created for manual capture
    and is not attached to the invoice. *)
Definition invoices_pay (req : Request) : M Response :=
  stripe_ready stripe "invoices" ;;;
  id <- prop (params req) "id" ;;
  invoice <- stripe_call stripe "invoices" (InvoicesRetrieve id) ;;
  amount_due <- prop invoice "amount_due" ;;
  intent <- stripe_call stripe "paymentIntents"
              (PaymentIntentsCreate
                 (Obj [("amount", amount_due);
                       ("currency", get invoice "currency");
                       ("customer", get invoice "customer");
                       ("payment_method_types", Arr [Str "card_present"]);
                       ("capture_method", Str "manual")])) ;;
  intent_id <- prop intent "id" ;;
  res_json (Obj [("paymentIntentId", intent_id)]).

End Handlers.

(** The routes of the serverless build. *)
Inductive Route : Type :=
| Hello | ConnectionToken | RegisterReader | CreateLocation | Products
| CreatePaymentIntent | ProcessPayment | SimulatePayment | Customers | Invoices
| InvoicesPay.

Definition handle (ToNumber_ext : value -> float) (stripe : Stripe) (route : Route)
  (req : Request) : M Response :=
  match route with
  | Hello => hello req
  | ConnectionToken => connection_token stripe req
  | RegisterReader => register_reader stripe req
  | CreateLocation => create_location stripe req
  | Products => products ToNumber_ext stripe req
  | CreatePaymentIntent => create_payment_intent ToNumber_ext stripe req
  | ProcessPayment => process_payment stripe req
  | SimulatePayment => simulate_payment stripe req
  | Customers => customers stripe req
  | Invoices => invoices stripe req
  | InvoicesPay => invoices_pay stripe req
  end.

End Serverless.

(** ** The older server kept in src/index.js (lines 535-751) *)

Module Legacy.

Section Handlers.

Variable ToNumber_ext : value -> float.
Variable stripe : Stripe.

Abbreviation ToNumber := (Js.ToNumber ToNumber_ext).

(** [JSON.parse], the engine's parser. *)
Variable JSON_parse : string -> error + value.

(** The body middleware (lines 555-568): the chunks of every request are
    concatenated and parsed; a body that does not parse becomes [{}]. *)
Definition parse_body (chunks : list string) : value :=
  let data := fold_left String.append chunks "" in
  match JSON_parse data with
  | inr parsed => parsed
  | inl _ => Obj []
  end.

(** POST /api/create-location *)
Definition create_location (req : Request) : M Response :=
  label <- prop (body req) "label" ;;
  let b := body req in
  if js_not label || js_not (get b "line1") || js_not (get b "city")
     || js_not (get b "state") || js_not (get b "country")
     || js_not (get b "postal_code")
  then respond 400 (Obj [("error", Str "Missing required address fields")])
  else
    location <- stripe_call stripe "terminal"
                  (LocationsCreate
                     (Obj [("display_name", label);
                           ("address", Obj [("line1", get b "line1");
                                            ("city", get b "city");
                                            ("state", get b "state");
                                            ("country", get b "country");
                                            ("postal_code", get b "postal_code")])])) ;;
    res_json location.

(** POST /api/create-payment-intent: as in the serverless build, with the
    request body logged and the intent captured manually. *)
Definition create_payment_intent (req : Request) : M Response :=
  b <- destructure (body req) "req.body" "amount" ;;
  let amount := get b "amount" in
  let metadata := get b "metadata" in
  console Log "req.body" [ShownValue (body req)] ;;;
  let parsedAmount := ToNumber amount in
  let amountInCents := Math_round (PrimFloat.mul parsedAmount 100%float) in
  if negb (isFinite parsedAmount) || PrimFloat.leb parsedAmount PrimFloat.zero
  then respond 400 (Obj [("error", Str "Invalid amount provided.")])
  else
    try_catch
      (intent <- stripe_call stripe "paymentIntents"
                   (PaymentIntentsCreate
                      (Obj [("amount", Num amountInCents);
                            ("currency", Str "usd");
                            ("capture_method", Str "manual");
                            ("payment_method_types", Arr [Str "card_present"]);
                            ("metadata", js_or metadata (Obj []))])) ;;
       paymentIntentId <- prop intent "id" ;;
       clientSecret <- prop intent "client_secret" ;;
       res_json (Obj [("paymentIntentId", paymentIntentId);
                      ("clientSecret", clientSecret)]))
      (fun err =>
         console Error "Stripe error:" [ShownError err] ;;;
         respond 500 (Obj [("error", Str "Failed to create payment intent.")])).

End Handlers.

End Legacy.

(** ** Observing a run *)

Definition Outcome : Type := (list Event * (error + Response))%type.

(** The response sent, if the handler sent one. *)
Definition answered (o : Outcome) : option Response :=
  match snd o with
  | inr r => Some r
  | inl _ => None
  end.

(** The calls made on the client, in order. *)
Definition issued (o : Outcome) : list Call := calls_of (fst o).

(** The webhook's switch writes one line at level [Log] or [Warn] in
    every branch; nothing else in that handler does. *)
Definition dispatch_line (e : Event) : bool :=
  match e with
  | Console Log _ _ | Console Warn _ _ => true
  | _ => false
  end.

Definition dispatched (o : Outcome) : bool := existsb dispatch_line (fst o).

Definition nullish (v : value) : bool :=
  match v with
  | Undefined | Null => true
  | _ => false
  end.

Definition is_customers_create (c : Call) : bool :=
  match c with
  | CustomersCreate _ => true
  | _ => false
  end.

(** The payload of a verification is raw when it is the body as it was
    sent, a string or a Buffer, both written [Str]. *)
Definition is_raw (payload : value) : bool :=
  match payload with
  | Str _ => true
  | _ => false
  end.

(** What [JSON.parse] makes of a text that starts an object or an array
    is an object or an array, not a string. *)
Definition parses_documents (JSON_parse : string -> error + value) : Prop :=
  forall text parsed,
    Server.starts_document text = true ->
    JSON_parse text = inr parsed ->
    is_raw parsed = false.

(** The client library computes the signature over the bytes of the
    body: [constructEvent] throws on a payload that is not raw (recent
    versions refuse a parsed object outright, older ones sign its
    conversion to a string and find no matching signature). *)
Definition raw_only (g : Gateway) : Prop :=
  forall t payload header secret,
    is_raw payload = false ->
    exists err, g t (WebhooksConstructEvent payload header secret) = inl err.

Definition verifies_raw_only (stripe : Stripe) : Prop :=
  match stripe with
  | Some g => raw_only g
  | None => True
  end.

(** A request with the given body and nothing else. *)
Definition post (b : value) : Request := mkRequest b (Obj []) (Obj []) (Obj []).

(** ** Conditions and pure counterparts used in the statements *)

(** The local checks of the main create-payment-intent handler, in the
    order it makes them. *)
Definition passes_validation (tn : value -> float) (b : value) : bool :=
  negb (nullish b)
  && negb (nullish (get b "metadata"))
  && truthy (get (get b "metadata") "name")
  && truthy (get (get b "metadata") "email")
  && truthy (get b "amount")
  && negb (PrimFloat.leb (ToNumber tn (get b "amount")) PrimFloat.zero).

(** An amount that is at most zero, or not finite. *)
Definition refusable (x : float) : bool :=
  PrimFloat.leb x PrimFloat.zero || negb (isFinite x).

(** What create-location sends for a body [b]. *)
Definition location_params (b : value) : value :=
  Obj [("display_name", get b "label");
       ("address", Obj [("line1", get b "line1");
                        ("city", get b "city");
                        ("state", get b "state");
                        ("country", get b "country");
                        ("postal_code", get b "postal_code")])].

(** Some required field is missing or otherwise falsy: what the handler
    tests. *)
Definition some_field_falsy (b : value) : bool :=
  existsb (fun k => js_not (get b k)) Server.location_fields.

(** Some required field is absent from the body: what the specification
    says is tested. *)
Definition some_field_absent (b : value) : bool :=
  existsb (fun k => is_undefined (get b k)) Server.location_fields.

(** The event types with a case of their own in the webhook's switch. *)
Definition recognised (type : value) : bool :=
  strict_eq type (Str "payment_intent.succeeded")
  || strict_eq type (Str "payment_intent.payment_failed").

(** Lists as the gateway returns them hold objects, never [null] or
    [undefined]. *)
Definition objects (l : list value) : Prop := Forall (fun v => nullish v = false) l.

(** A property key that names no member of [Object.prototype]. *)
Definition plain_key (k : string) : bool := negb (existsb (String.eqb k) Object_prototype).

(** An invoice as the gateway lists it: an object whose status is a
    string, or has no text, and names no member of [Object.prototype]. *)
Definition plain_status (status : value) : bool :=
  match status with
  | Str s => plain_key s
  | Undefined | Null | Bool _ => true
  | Num _ | Obj _ | Arr _ => false
  end.

Definition is_invoice (v : value) : bool :=
  negb (nullish v) && plain_status (get v "status").

Definition invoice_list (l : list value) : Prop := Forall (fun v => is_invoice v = true) l.

(** [p.product === product.id && p.unit_amount], read as a condition. *)
Definition matches (product p : value) : bool :=
  strict_eq (get p "product") (get product "id") && truthy (get p "unit_amount").

(** The price the handler picks for a product: the first match, or
    [undefined]. *)
Definition price_for (prices : list value) (product : value) : value :=
  match find (matches product) prices with
  | Some p => p
  | None => Undefined
  end.

(** The object the handler builds for a product and its price. *)
Definition entry_of (tn : value -> float) (product price : value) : value :=
  match Server.product_entry tn product price [] with
  | (_, inr entry) => entry
  | (_, inl _) => Undefined
  end.

(** The specification's reading of the price of a product: the first
    price of that product whose [unit_amount] is set at all. *)
Definition amount_set (p : value) : bool := negb (nullish (get p "unit_amount")).

Definition price_in_spec (prices : list value) (product : value) : option value :=
  find (fun p => strict_eq (get p "product") (get product "id") && amount_set p) prices.

Definition list_params : value := Obj [("active", Bool true); ("limit", Num 100%float)].

Definition invoices_params : value := Obj [("limit", Num 40%float)].

(** The rank the comparator works with: [statusOrder[status] || 99],
    where the 0 of "open" is falsy and gives way to 99. *)
Definition effective_rank (status : value) : Z :=
  match status with
  | Str s =>
      if String.eqb s "draft" then 1
      else if String.eqb s "uncollectible" then 2
      else if String.eqb s "paid" then 3
      else if String.eqb s "void" then 4
      else 99
  | _ => 99
  end.

Definition invoice_rank (invoice : value) : Z := effective_rank (get invoice "status").

(** Stable insertion sort on [invoice_rank], highest rank first. *)
Fixpoint insert_by_rank (x : value) (l : list value) : list value :=
  match l with
  | [] => [x]
  | y :: l' =>
      if (invoice_rank x <? invoice_rank y)%Z
      then y :: insert_by_rank x l'
      else x :: y :: l'
  end.

Fixpoint sort_by_rank (l : list value) : list value :=
  match l with
  | [] => []
  | x :: l' => insert_by_rank x (sort_by_rank l')
  end.

(** Ranks never rise along the list. *)
Definition descending (l : list value) : Prop :=
  StronglySorted (fun a b => (invoice_rank b <= invoice_rank a)%Z) l.

(** The specification's rank sequence: open, draft, uncollectible, paid,
    void, then anything else. *)
Definition rank_in_spec (status : value) : Z :=
  match status with
  | Str s =>
      if String.eqb s "open" then 0
      else if String.eqb s "draft" then 1
      else if String.eqb s "uncollectible" then 2
      else if String.eqb s "paid" then 3
      else if String.eqb s "void" then 4
      else 5
  | _ => 5
  end.

(** No invoice is followed by one that the specification ranks before it. *)
Fixpoint ordered_as_in_spec (l : list value) : bool :=
  match l with
  | [] => true
  | a :: rest =>
      forallb (fun b => (rank_in_spec (get a "status") <=? rank_in_spec (get b "status"))%Z)
              rest
      && ordered_as_in_spec rest
  end.

(** ** Sample requests and gateways *)

(** A run-time conversion for the samples, whose amounts are numbers. *)
Definition numbers_only : value -> float := fun _ => PrimFloat.nan.

(** A run-time conversion for the samples, whose statuses and event types
    are strings. *)
Definition strings_only : value -> error + string :=
  fun _ => inr "[object Object]".

(** A gateway on which every call succeeds. *)
Definition accepting : Gateway :=
  fun _ c =>
    match c with
    | CustomersCreate _ => inr (Obj [("id", Str "cus_1")])
    | PaymentIntentsCreate _ =>
        inr (Obj [("id", Str "pi_1"); ("client_secret", Str "pi_1_secret")])
    | LocationsCreate _ => inr (Obj [("id", Str "tml_1")])
    | _ => inr (Obj [])
    end.

Definition customer_metadata : value :=
  Obj [("name", Str "Ann"); ("email", Str "ann@example.com"); ("order", Str "7")].

Definition paying_request : Request :=
  post (Obj [("amount", Num 12.5%float); ("metadata", customer_metadata)]).

(** The body [{"amount": 1e999, "metadata": {...}}]: [JSON.parse] reads
    the number as [Infinity]. *)
Definition infinite_amount_request : Request :=
  post (Obj [("amount", Num PrimFloat.infinity); ("metadata", customer_metadata)]).

(** The metadata of a customer whose email address lacks its "@". *)
Definition mistyped_metadata : value :=
  Obj [("name", Str "Ann"); ("email", Str "ann.example.com")].

Definition mistyped_customer : Call :=
  CustomersCreate (Obj [("email", Str "ann.example.com"); ("name", Str "Ann")]).

(** A gateway that checks its parameters as the payments platform does:
    the email address of a customer holds an "@", and the amount of an
    intent is a whole number of minor units, at least 1. *)
Definition has_at (s : string) : bool :=
  existsb (Ascii.eqb "@"%char) (list_ascii_of_string s).

Definition whole_amount (x : float) : bool :=
  isFinite x && PrimFloat.eqb (Math_round x) x && PrimFloat.leb 1%float x.

Definition email_invalid (address : string) : error :=
  mkError (Some "email_invalid") ("Invalid email address: " ++ address).

Definition invalid_integer : error :=
  mkError (Some "parameter_invalid_integer") "Invalid integer".

Definition checking : Gateway :=
  fun _ c =>
    match c with
    | CustomersCreate params =>
        match get params "email" with
        | Str address =>
            if has_at address then inr (Obj [("id", Str "cus_1")])
            else inl (email_invalid address)
        | _ => inr (Obj [("id", Str "cus_1")])
        end
    | PaymentIntentsCreate params =>
        match get params "amount" with
        | Num x =>
            if whole_amount x
            then inr (Obj [("id", Str "pi_1"); ("client_secret", Str "pi_1_secret")])
            else inl invalid_integer
        | _ => inl invalid_integer
        end
    | _ => inr (Obj [])
    end.

Definition request_without_metadata : Request :=
  post (Obj [("amount", Num 12.5%float)]).

(** What the main handler sends for [paying_request] on [accepting]. *)
Definition paying_intent_params : value :=
  Eval vm_compute in
    match issued (run (Server.create_payment_intent numbers_only (Some accepting)
                         paying_request)) with
    | [_; PaymentIntentsCreate ip] => ip
    | _ => Undefined
    end.

(** An intent that was cancelled before: the gateway reports the status
    "canceled" and refuses to cancel it again. *)
Definition canceled_intent : value :=
  Obj [("id", Str "pi_1"); ("status", Str "canceled")].

Definition idle_reader : value := Obj [("id", Str "tmr_1"); ("action", Null)].

Definition cannot_cancel : error :=
  mkError (Some "payment_intent_unexpected_state")
          "You cannot cancel this PaymentIntent because it has a status of canceled.".

Definition gateway_with_canceled_intent : Gateway :=
  fun _ c =>
    match c with
    | PaymentIntentsRetrieve _ => inr canceled_intent
    | ReadersCancelAction _ => inr idle_reader
    | PaymentIntentsCancel _ => inl cannot_cancel
    | _ => inr (Obj [])
    end.

Definition cancel_request : Request :=
  post (Obj [("paymentIntentId", Str "pi_1"); ("readerId", Str "tmr_1")]).

Definition invoice (id status : string) : value :=
  Obj [("id", Str id); ("status", Str status)].

(** The specification's own example: statuses paid, open, void, draft. *)
Definition listed_invoices : list value :=
  [invoice "in_1" "paid"; invoice "in_2" "open"; invoice "in_3" "void";
   invoice "in_4" "draft"].

Definition invoicing_gateway : Gateway :=
  fun _ c =>
    match c with
    | InvoicesList _ => inr (Obj [("object", Str "list"); ("data", Arr listed_invoices)])
    | _ => inr (Obj [])
    end.

Definition configured_env : Env := mkEnv (Some "whsec_test") None.

Definition status_request : Request :=
  mkRequest Undefined (Obj [("id", Str "pi_1")]) (Obj []) (Obj []).

Definition webhook_request : Request :=
  mkRequest (Str "{}") (Obj []) (Obj [])
            (Obj [("stripe-signature", Str "t=1,v1=00")]).

Definition signature_mismatch : error :=
  mkError None "No signatures found matching the expected signature for payload.".

Definition refund_event : value := Obj [("id", Str "evt_1"); ("type", Str "charge.refunded")].

(** *** A signed delivery

    The text of an event, the signature header the platform computes for
    it under the secret of [configured_env], and a client that verifies
    as the library does: the payload is the text that was signed, a
    string or a Buffer, and an object in its place is refused before any
    signature is compared. *)
Definition quote : string := String (Ascii.ascii_of_nat 34) EmptyString.

Definition delivery_text : string :=
  "{" ++ quote ++ "id" ++ quote ++ ":" ++ quote ++ "evt_1" ++ quote ++ ","
      ++ quote ++ "type" ++ quote ++ ":" ++ quote ++ "charge.refunded" ++ quote ++ "}".

Definition delivery_signature : string :=
  "t=1730620800,v1=6b0f2b2f9a3c5d4e8f7a1b0c9d8e7f6a5b4c3d2e1f0a9b8c7d6e5f4a3b2c1d0e".

Definition payload_not_raw : error :=
  mkError None
    ("Webhook payload must be provided as a string or a Buffer instance "
       ++ "representing the _raw_ request body.").

Definition signing_gateway : Gateway :=
  fun _ c =>
    match c with
    | WebhooksConstructEvent (Str text) (Str header) secret =>
        if String.eqb text delivery_text && String.eqb header delivery_signature
           && String.eqb secret "whsec_test"
        then inr refund_event
        else inl signature_mismatch
    | WebhooksConstructEvent (Str _) _ _ => inl signature_mismatch
    | WebhooksConstructEvent _ _ _ => inl payload_not_raw
    | _ => inr (Obj [])
    end.

(** [JSON.parse] on the samples: the text of the delivery is read, any
    other text refused. *)
Definition delivery_parse : string -> error + value :=
  fun s =>
    if String.eqb s delivery_text then inr refund_event
    else inl (mkError None "Unexpected end of JSON input").

Definition not_a_document : string -> error :=
  fun _ => mkError None "Unexpected token in JSON at position 0".

Definition no_form : string -> list (string * value) := fun _ => [].

Definition delivery_headers : value :=
  Obj [("content-type", Str "application/json");
       ("stripe-signature", Str delivery_signature)].

(** The delivery as the platform posts it, and the same request as the
    handler would see it behind [express.raw] alone. *)
Definition signed_delivery : Server.Incoming :=
  Server.mkIncoming true true false delivery_text delivery_headers.

Definition raw_request : Request :=
  mkRequest (Str delivery_text) (Obj []) (Obj []) delivery_headers.

(** The same text under a signature that does not belong to it. *)
Definition tampered_delivery : Server.Incoming :=
  Server.mkIncoming true true false delivery_text
    (Obj [("content-type", Str "application/json");
          ("stripe-signature", Str "t=1730620800,v1=00")]).

Definition full_location : list (string * value) :=
  [("line1", Str "1 Main St"); ("city", Str "Austin"); ("state", Str "TX");
   ("country", Str "US"); ("postal_code", Str "78701")].

(** All six fields present, the label empty. *)
Definition location_with_empty_label : value := Obj (("label", Str "") :: full_location).

Definition location_with_label : value := Obj (("label", Str "Shop") :: full_location).

Definition invalid_address : error :=
  mkError (Some "invalid_request_error") "Invalid postal code".

Definition address_rejecting_gateway : Gateway :=
  fun _ c =>
    match c with
    | LocationsCreate _ => inl invalid_address
    | _ => inr (Obj [])
    end.

Definition catalog (products prices : list value) : Gateway :=
  fun _ c =>
    match c with
    | ProductsList _ => inr (Obj [("object", Str "list"); ("data", Arr products)])
    | PricesList _ => inr (Obj [("object", Str "list"); ("data", Arr prices)])
    | _ => inr (Obj [])
    end.

Definition product (id name : string) : value :=
  Obj [("id", Str id); ("name", Str name); ("description", Null); ("images", Arr [])].

Definition price (id product : string) (unit_amount : value) (currency : string) : value :=
  Obj [("id", Str id); ("product", Str product); ("unit_amount", unit_amount);
       ("currency", Str currency)].

(** A product whose only price is a free one in euros. *)
Definition sampler : value := product "prod_free" "Sampler".
Definition free_price : value := price "price_free" "prod_free" (Num 0%float) "eur".

(** A product with two prices, the first without a unit amount, and a
    product with no price. *)
Definition coffee : value := product "prod_1" "Coffee".
Definition mug : value := product "prod_2" "Mug".
Definition coffee_prices : list value :=
  [price "price_0" "prod_1" Null "usd"; price "price_1" "prod_1" (Num 1250%float) "eur"].

(** ** Conditions on whole runs *)

Local Open Scope Z_scope.

(** The statuses each route of the main server can answer with. *)
Definition statuses (route : Server.Route) : list Z :=
  match route with
  | Server.ConnectionToken => [200; 500]
  | Server.RegisterReader => [200; 400; 404; 500]
  | Server.CreateLocation => [200; 400; 500]
  | Server.Products => [200; 500]
  | Server.CreatePaymentIntent => [200; 400; 500]
  | Server.ProcessPayment => [200; 400; 404; 409; 500; 503]
  | Server.SimulatePayment => [200; 400; 404; 500]
  | Server.Webhook => [200; 400; 500]
  | Server.Customers => [200; 500]
  | Server.Invoices => [200; 500]
  | Server.InvoicesPay => [200; 400; 404; 500]
  | Server.CancelPaymentIntent => [200; 400; 409; 500]
  | Server.PaymentIntentStatus => [200; 500]
  end.

(** A computation that ends, on every trace, with a response whose status
    is in [l]. *)
Definition answers_in (l : list Z) (m : M Response) : Prop :=
  forall t, exists t' r, m t = (t', inr r) /\ In (status r) l.

(** A computation that, when it does not throw, ends with a status in [l]. *)
Definition returns_in (l : list Z) (m : M Response) : Prop :=
  forall t t' r, m t = (t', inr r) -> In (status r) l.

(** The calls [new], issued after the calls [before], went one after the
    other: each was answered before the next was sent, a call that threw
    is the last one, and what it threw is what the computation throws. *)
Fixpoint sequential {A} (g : Gateway) (before new : list Call) (res : error + A) : Prop :=
  match new with
  | [] => True
  | c :: rest =>
      match g before c with
      | inl e => rest = [] /\ res = inl e
      | inr _ => sequential g (before ++ [c]) rest res
      end
  end.

(** A computation whose calls on [g] are sequential, from every trace. *)
Definition orderly {A} (g : Gateway) (m : M A) : Prop :=
  forall t t' res,
    m t = (t', res) ->
    exists new, calls_of t' = calls_of t ++ new /\ sequential g (calls_of t) new res.

(** A computation that makes no call. *)
Definition quiet {A} (m : M A) : Prop :=
  forall t t' res, m t = (t', res) -> calls_of t' = calls_of t.

(** The status a route answers with after a gateway error [e], read off
    its [catch] block. *)
Definition error_status (route : Server.Route) (e : error) : Z :=
  match route with
  | Server.RegisterReader | Server.InvoicesPay =>
      if code_is e "resource_missing" then 404
      else if code_is e "invalid_request_error" then 400
      else 500
  | Server.CreateLocation => if code_is e "invalid_request_error" then 400 else 500
  | Server.CreatePaymentIntent => if code_is e "parameter_invalid_integer" then 400 else 500
  | Server.ProcessPayment =>
      if code_is e "resource_missing" then 404
      else if code_is e "terminal_reader_timeout" then 409
      else if code_is e "terminal_reader_busy" then 409
      else if code_is e "terminal_reader_offline" then 503
      else 500
  | Server.SimulatePayment => if code_is e "resource_missing" then 404 else 500
  | Server.Webhook => 400
  | _ => 500
  end.

(** The error thrown by the last call of a list, if that call threw. *)
Definition failed_call (g : Gateway) (calls : list Call) : option error :=
  match rev calls with
  | [] => None
  | c :: before =>
      match g (rev before) c with
      | inl e => Some e
      | inr _ => None
      end
  end.

(** A [catch] block that answers with the status of the route and makes
    no call. *)
Definition catches (route : Server.Route) (h : error -> M Response) : Prop :=
  forall e t, exists t' r,
    h e t = (t', inr r) /\ calls_of t' = calls_of t /\ status r = error_status route e.

(** A handler made of one [try] whose calls are sequential and a [catch]
    as above. *)
Definition guarded_shape (g : Gateway) (route : Server.Route) (handler : M Response) : Prop :=
  exists body h, handler = try_catch body h /\ orderly g body /\ catches route h.

(** The calls that belong to a route. *)
Definition own_call (route : Server.Route) (c : Call) : bool :=
  match route, c with
  | Server.ConnectionToken, ConnectionTokensCreate => true
  | Server.RegisterReader, ReadersCreate _ => true
  | Server.CreateLocation, LocationsCreate _ => true
  | Server.Products, (ProductsList _ | PricesList _) => true
  | Server.CreatePaymentIntent, (CustomersCreate _ | PaymentIntentsCreate _) => true
  | Server.ProcessPayment, ReadersProcessPaymentIntent _ _ => true
  | Server.SimulatePayment, ReadersPresentPaymentMethod _ _ => true
  | Server.Webhook, WebhooksConstructEvent _ _ _ => true
  | Server.Customers, CustomersList _ => true
  | Server.Invoices, InvoicesList _ => true
  | Server.InvoicesPay,
    (InvoicesRetrieve _ | PaymentIntentsCreate _ | InvoicesAttachPayment _ _) => true
  | Server.CancelPaymentIntent,
    (PaymentIntentsRetrieve _ | ReadersCancelAction _ | PaymentIntentsCancel _) => true
  | Server.PaymentIntentStatus, PaymentIntentsRetrieve _ => true
  | _, _ => false
  end.

(** A computation all of whose calls satisfy [p]. *)
Definition within {A} (p : Call -> bool) (m : M A) : Prop :=
  forall t t' res,
    m t = (t', res) -> exists new, calls_of t' = calls_of t ++ new /\ forallb p new = true.

(** The request lacks something its route requires: the test each handler
    makes before its first call. *)
Definition incomplete (tn : value -> float) (route : Server.Route) (req : Request) : bool :=
  let b := body req in
  match route with
  | Server.RegisterReader =>
      js_not (get b "registration_code") || js_not (get b "location_id")
  | Server.CreateLocation => some_field_falsy b
  | Server.CreatePaymentIntent =>
      let m := get b "metadata" in
      negb (nullish m)
      && (js_not (get m "name") || js_not (get m "email") || js_not (get b "amount")
          || PrimFloat.leb (ToNumber tn (get b "amount")) PrimFloat.zero)
  | Server.ProcessPayment => js_not (get b "readerId") || js_not (get b "paymentIntentId")
  | Server.SimulatePayment => js_not (get b "reader_id")
  | Server.InvoicesPay => js_not (get (params req) "id")
  | Server.CancelPaymentIntent =>
      js_not (get b "paymentIntentId") || js_not (get b "readerId")
  | _ => false
  end.

(** The intent the main server creates to pay an invoice. *)
Definition invoice_intent_params (invoice : value) : value :=
  Obj [("amount", get invoice "amount_due");
       ("currency", get invoice "currency");
       ("customer", get invoice "customer");
       ("payment_method_types", Arr [Str "card_present"])].

Definition attach_params (intent : value) : value :=
  Obj [("payment_intent", get intent "id"); ("expand", Arr [Str "payments"])].

(** The line the switch writes for an event type, [text] being the type
    as the template string of the default branch shows it. *)
Definition dispatch_log (type : value) (text : string) : Event :=
  if strict_eq type (Str "payment_intent.succeeded")
  then Console Log "PaymentIntent was successful!" []
  else if strict_eq type (Str "payment_intent.payment_failed")
  then Console Log "PaymentIntent failed." []
  else Console Warn ("Unhandled event type: " ++ text) [].

Definition status_failure : Response :=
  mkResponse 500 (Obj [("error", Str "Failed to fetch payment intent status")]).

(** The invoices of one rank, in the order of the list. *)
Definition of_rank (r : Z) (l : list value) : list value :=
  filter (fun v => invoice_rank v =? r) l.

(** The calls that belong to a route of the serverless build. *)
Definition serverless_call (route : Serverless.Route) (c : Call) : bool :=
  match route, c with
  | Serverless.ConnectionToken, ConnectionTokensCreate => true
  | Serverless.RegisterReader, ReadersCreate _ => true
  | Serverless.CreateLocation, LocationsCreate _ => true
  | Serverless.Products, (ProductsList _ | PricesList _) => true
  | Serverless.CreatePaymentIntent, PaymentIntentsCreate _ => true
  | Serverless.ProcessPayment, ReadersProcessPaymentIntent _ _ => true
  | Serverless.SimulatePayment, ReadersPresentPaymentMethod _ _ => true
  | Serverless.Customers, CustomersList _ => true
  | Serverless.Invoices, InvoicesList _ => true
  | Serverless.InvoicesPay, (InvoicesRetrieve _ | PaymentIntentsCreate _) => true
  | _, _ => false
  end.

(** The two routes of the serverless build with a [try] around the call. *)
Definition catching (route : Serverless.Route) : bool :=
  match route with
  | Serverless.CreatePaymentIntent | Serverless.ProcessPayment => true
  | _ => false
  end.

(** The routes of the serverless build that use the client with no
    [try] around the call and no test before it. *)
Definition bare (route : Serverless.Route) : bool :=
  match route with
  | Serverless.ConnectionToken | Serverless.RegisterReader | Serverless.Products
  | Serverless.SimulatePayment | Serverless.Customers | Serverless.Invoices
  | Serverless.InvoicesPay => true
  | _ => false
  end.

(** The secret key as the start-up code sees it: set and not empty. *)
Definition usable (key : option string) : option string :=
  match key with
  | Some k => if String.eqb k "" then None else Some k
  | None => None
  end.

(** The routes of the main server that start with the [!stripe] test. *)
Definition guarded (route : Server.Route) : bool :=
  match route with
  | Server.Webhook | Server.PaymentIntentStatus => false
  | _ => true
  end.

(** ** Further sample requests and gateways *)

Definition reader_offline : error :=
  mkError (Some "terminal_reader_offline") "Reader is currently offline.".

Definition offline_reader_gateway : Gateway :=
  fun _ c =>
    match c with
    | ReadersProcessPaymentIntent _ _ => inl reader_offline
    | _ => inr (Obj [])
    end.

Definition process_request : Request :=
  post (Obj [("readerId", Str "tmr_1"); ("paymentIntentId", Str "pi_1")]).

Definition request_without_intent : Request := post (Obj [("readerId", Str "tmr_1")]).

Definition negative_amount_request : Request :=
  post (Obj [("amount", Num (-5)%float); ("metadata", customer_metadata)]).

Definition succeeded_intent : value :=
  Obj [("id", Str "pi_1"); ("status", Str "succeeded")].

Definition gateway_with_succeeded_intent : Gateway :=
  fun _ c =>
    match c with
    | PaymentIntentsRetrieve _ => inr succeeded_intent
    | _ => inr (Obj [])
    end.

(** An intent whose status is spelt the way the handler tests it. *)
Definition cancelled_intent : value :=
  Obj [("id", Str "pi_1"); ("status", Str "cancelled")].

Definition gateway_with_cancelled_intent : Gateway :=
  fun _ c =>
    match c with
    | PaymentIntentsRetrieve _ => inr cancelled_intent
    | _ => inr (Obj [])
    end.

Definition open_invoice : value :=
  Obj [("id", Str "in_1"); ("amount_due", Num 5000%float); ("currency", Str "usd");
       ("customer", Str "cus_1"); ("status", Str "open")].

Definition new_intent : value :=
  Obj [("id", Str "pi_1"); ("client_secret", Str "pi_1_secret")].

Definition invoice_gateway : Gateway :=
  fun _ c =>
    match c with
    | InvoicesRetrieve _ => inr open_invoice
    | PaymentIntentsCreate _ => inr new_intent
    | _ => inr (Obj [])
    end.

Definition no_invoice_gateway : Gateway :=
  fun _ c =>
    match c with
    | InvoicesRetrieve _ => inr Null
    | _ => inr (Obj [])
    end.

Definition pay_request : Request :=
  mkRequest (Obj []) (Obj []) (Obj [("id", Str "in_1")]) (Obj []).

Definition unconfigured_env : Env := mkEnv None None.

Definition unavailable : error :=
  mkError (Some "api_connection_error") "An error occurred with our connection to Stripe.".

Definition failing_gateway : Gateway := fun _ _ => inl unavailable.

Definition unexpected_token : error := mkError None "Unexpected token a in JSON at position 0".

(** A parser for the samples: it reads [null] and refuses the rest. *)
Definition strict_parse : string -> error + value :=
  fun s => if String.eqb s "null" then inr Null else inl unexpected_token.

(** * Properties *)

Local Open Scope Z_scope.

(** ** The monad and the value operations *)

Lemma bind_ret {A B} (a : A) (k : A -> M B) : bind (ret a) k = k a.
Proof. reflexivity. Qed.

Lemma bind_throw {A B} (e : error) (k : A -> M B) : bind (throw e) k = throw e.
Proof. reflexivity. Qed.

Lemma try_catch_throw {A} (e : error) (h : error -> M A) : try_catch (throw e) h = h e.
Proof. reflexivity. Qed.

(** One call on an initialized client: the call is recorded, and the
    computation goes on or stops with what the gateway answers. *)
Lemma bind_call {A} (g : Gateway) (resource : string) (c : Call) (k : value -> M A)
  (t : list Event) :
  bind (stripe_call (Some g) resource c) k t
  = match g (calls_of t) c with
    | inl e => (t ++ [Called c], inl e)
    | inr v => k v (t ++ [Called c])
    end.
Proof. unfold bind, stripe_call. destruct (g (calls_of t) c); reflexivity. Qed.

Lemma destructure_ok (v : value) (what k : string) :
  nullish v = false -> destructure v what k = ret v.
Proof. destruct v; simpl; intros H; try discriminate; reflexivity. Qed.

Lemma destructure_nullish (v : value) (what k : string) :
  nullish v = true -> exists e, destructure v what k = throw e /\ code e = None.
Proof. destruct v; simpl; intros H; try discriminate; eexists; split; reflexivity. Qed.

Lemma prop_ok (v : value) (k : string) :
  nullish v = false -> prop v k = ret (get v k).
Proof. destruct v; simpl; intros H; try discriminate; reflexivity. Qed.

Lemma prop_nullish (v : value) (k : string) :
  nullish v = true -> exists e, prop v k = throw e /\ code e = None.
Proof. destruct v; simpl; intros H; try discriminate; eexists; split; reflexivity. Qed.


Lemma get_set_same (k : string) (v : value) (fields : list (string * value)) :
  get (Obj (set k v fields)) k = v.
Proof.
  simpl. induction fields as [|[k' v'] rest IH]; simpl.
  - now rewrite String.eqb_refl.
  - destruct (String.eqb k k') eqn:E; simpl; rewrite E; [reflexivity | exact IH].
Qed.

Lemma get_set_other (k k' : string) (v : value) (fields : list (string * value)) :
  k' <> k -> get (Obj (set k v fields)) k' = get (Obj fields) k'.
Proof.
  intros Hne. simpl. induction fields as [|[k0 v0] rest IH]; simpl.
  - destruct (String.eqb_spec k' k); [contradiction | reflexivity].
  - destruct (String.eqb k k0) eqn:E; simpl.
    + apply String.eqb_eq in E. subst k0.
      destruct (String.eqb_spec k' k); [contradiction | reflexivity].
    + destruct (String.eqb k' k0); [reflexivity | exact IH].
Qed.

Ltac crunch :=
  unfold run, issued, answered, try_catch, bind, throw, ret, respond, res_json, console,
    stripe_call;
  simpl;
  repeat match goal with
         | |- context [if ?c then _ else _] => destruct c; simpl
         end.

Ltac not_200 :=
  let r := fresh "r" in
  crunch; intros r; intros [= <-]; discriminate.

Ltac silent := split; [crunch; reflexivity | not_200].

(** ** Create payment intent, main server *)

(** Every run of the handler is one of three: no call at all and no
    success; the customer call alone, failed; or the customer call
    answered, followed by the intent call. *)
Lemma create_payment_intent_calls (tn : value -> float) (stripe : Stripe) (req : Request) :
  let o := run (Server.create_payment_intent tn stripe req) in
  let b := body req in
  let m := get b "metadata" in
  let cp := Obj [("email", get m "email"); ("name", get m "name")] in
  (issued o = [] /\ (forall r, answered o = Some r -> status r <> 200))
  \/ exists g, stripe = Some g /\ passes_validation tn b = true /\
       ((exists e, g [] (CustomersCreate cp) = inl e /\ issued o = [CustomersCreate cp]
                   /\ (forall r, answered o = Some r -> status r <> 200))
        \/ exists customer ip,
             g [] (CustomersCreate cp) = inr customer
             /\ issued o = [CustomersCreate cp; PaymentIntentsCreate ip]
             /\ get ip "amount"
                = Num (Math_round (PrimFloat.mul (ToNumber tn (get b "amount")) 100%float))
             /\ get ip "customer" = opt_prop customer "id"
             /\ get ip "metadata" = Obj (set "name" (get m "email") (spread m))).
Proof.
  cbv zeta. unfold passes_validation.
  unfold Server.create_payment_intent, Server.uninitialized.
  destruct stripe as [g|]; [|left; silent].
  destruct (nullish (body req)) eqn:Hb.
  { left. destruct (destructure_nullish _ "req.body" "amount" Hb) as (e & -> & He).
    rewrite bind_throw, try_catch_throw. silent. }
  rewrite (destructure_ok _ _ _ Hb), bind_ret.
  destruct (nullish (get (body req) "metadata")) eqn:Hm.
  { left. destruct (destructure_nullish _ "metadata" "name" Hm) as (e & -> & He).
    rewrite bind_throw, try_catch_throw. silent. }
  rewrite (destructure_ok _ _ _ Hm), bind_ret. unfold js_not.
  destruct (truthy (get (get (body req) "metadata") "name")) eqn:Hn; simpl;
    [|left; silent].
  destruct (truthy (get (get (body req) "metadata") "email")) eqn:He; simpl;
    [|left; silent].
  destruct (truthy (get (body req) "amount")) eqn:Ha; simpl;
    [|left; silent].
  destruct (PrimFloat.leb _ _) eqn:Hle; simpl; [left; silent|].
  right. exists g. split; [reflexivity|]. split; [reflexivity|].
  unfold run, issued, answered, try_catch, bind, stripe_call. simpl.
  destruct (g [] (CustomersCreate _)) as [e|customer] eqn:Hc.
  { left. exists e. split; [reflexivity|]. silent. }
  right. exists customer. eexists. split; [reflexivity|].
  destruct (g [CustomersCreate _] (PaymentIntentsCreate _)) as [e|intent] eqn:Hi.
  { simpl. split; [crunch; reflexivity|]. repeat split. }
  destruct (nullish intent) eqn:Hin.
  { destruct (prop_nullish _ "id" Hin) as (e & -> & Hcode). simpl.
    split; [crunch; reflexivity|]. repeat split. }
  rewrite (prop_ok _ "id" Hin), (prop_ok _ "client_secret" Hin). simpl.
  split; [reflexivity|]. repeat split.
Qed.

Lemma main_rejects_nonpositive_and_nan (tn : value -> float) (g : Gateway) (req : Request)
  (x : float) :
  nullish (body req) = false ->
  nullish (get (body req) "metadata") = false ->
  get (body req) "amount" = Num x ->
  PrimFloat.leb x PrimFloat.zero = true \/ PrimFloat.is_nan x = true ->
  exists r, run (Server.create_payment_intent tn (Some g) req) = ([], inr r)
            /\ status r = 400.
Proof.
  intros Hb Hm Ha Hx. unfold Server.create_payment_intent, Server.uninitialized.
  rewrite (destructure_ok _ _ _ Hb), bind_ret, (destructure_ok _ _ _ Hm), bind_ret.
  destruct (js_not _ || js_not _); [eexists; split; reflexivity|].
  rewrite Ha. unfold js_not. simpl.
  destruct Hx as [-> | ->]; rewrite ?orb_true_r; simpl; eexists; split; reflexivity.
Qed.

Lemma serverless_rejects (tn : value -> float) (stripe : Stripe) (req : Request) (x : float) :
  get (body req) "amount" = Num x ->
  refusable x = true ->
  run (Serverless.create_payment_intent tn stripe req)
  = ([], inr (mkResponse 400 (Obj [("error", Str "Invalid amount provided.")]))).
Proof.
  intros Ha Hx. unfold Serverless.create_payment_intent.
  assert (Hb : nullish (body req) = false)
    by (destruct (body req); try discriminate; reflexivity).
  rewrite (destructure_ok _ _ _ Hb), bind_ret, Ha. simpl.
  unfold refusable in Hx. rewrite orb_comm in Hx. rewrite Hx. reflexivity.
Qed.

Lemma legacy_rejects (tn : value -> float) (stripe : Stripe) (req : Request) (x : float) :
  get (body req) "amount" = Num x ->
  refusable x = true ->
  exists line,
  run (Legacy.create_payment_intent tn stripe req)
  = ([line], inr (mkResponse 400 (Obj [("error", Str "Invalid amount provided.")])))
  /\ calls_of [line] = [].
Proof.
  intros Ha Hx. unfold Legacy.create_payment_intent.
  assert (Hb : nullish (body req) = false)
    by (destruct (body req); try discriminate; reflexivity).
  rewrite (destructure_ok _ _ _ Hb), bind_ret, Ha.
  unfold refusable in Hx. rewrite orb_comm in Hx.
  unfold run, bind, console. simpl. rewrite Hx. eexists. split; reflexivity.
Qed.

Lemma serverless_calls (tn : value -> float) (stripe : Stripe) (req : Request) (c : Call) :
  In c (issued (run (Serverless.create_payment_intent tn stripe req))) ->
  exists ip,
    c = PaymentIntentsCreate ip
    /\ get ip "amount"
       = Num (Math_round (PrimFloat.mul (ToNumber tn (get (body req) "amount")) 100%float)).
Proof.
  unfold Serverless.create_payment_intent.
  destruct (nullish (body req)) eqn:Hb.
  { destruct (destructure_nullish _ "req.body" "amount" Hb) as (e & -> & _).
    rewrite bind_throw. intros []. }
  rewrite (destructure_ok _ _ _ Hb), bind_ret. cbv zeta.
  destruct (_ || _); [intros []|].
  destruct stripe as [g|]; [|intros []].
  unfold run, issued, try_catch. rewrite bind_call. cbn [calls_of app].
  destruct (g [] _) as [e|intent]; simpl.
  - intros [<-|[]]. eexists. split; reflexivity.
  - destruct (nullish intent) eqn:Hin.
    + destruct (prop_nullish _ "id" Hin) as (e & -> & _). simpl.
      intros [<-|[]]. eexists. split; reflexivity.
    + rewrite (prop_ok _ "id" Hin), (prop_ok _ "client_secret" Hin). simpl.
      intros [<-|[]]. eexists. split; reflexivity.
Qed.

Lemma legacy_calls (tn : value -> float) (stripe : Stripe) (req : Request) (c : Call) :
  In c (issued (run (Legacy.create_payment_intent tn stripe req))) ->
  exists ip,
    c = PaymentIntentsCreate ip
    /\ get ip "amount"
       = Num (Math_round (PrimFloat.mul (ToNumber tn (get (body req) "amount")) 100%float)).
Proof.
  unfold Legacy.create_payment_intent.
  destruct (nullish (body req)) eqn:Hb.
  { destruct (destructure_nullish _ "req.body" "amount" Hb) as (e & -> & _).
    rewrite bind_throw. intros []. }
  rewrite (destructure_ok _ _ _ Hb), bind_ret. cbv zeta.
  unfold run, issued, bind at 1, console. cbn [app].
  destruct (_ || _); [intros []|].
  destruct stripe as [g|]; [|intros []].
  unfold try_catch. rewrite bind_call. cbn [calls_of app].
  destruct (g [] _) as [e|intent]; simpl.
  - intros [<-|[]]. eexists. split; reflexivity.
  - destruct (nullish intent) eqn:Hin.
    + destruct (prop_nullish _ "id" Hin) as (e & -> & _). simpl.
      intros [<-|[]]. eexists. split; reflexivity.
    + rewrite (prop_ok _ "id" Hin), (prop_ok _ "client_secret" Hin). simpl.
      intros [<-|[]]. eexists. split; reflexivity.
Qed.

(** On the main server an intent call carries the rounded amount. *)
Lemma main_forwards_rounded_amount (tn : value -> float) (stripe : Stripe) (req : Request)
  (ip : value) :
  In (PaymentIntentsCreate ip) (issued (run (Server.create_payment_intent tn stripe req))) ->
  get ip "amount"
  = Num (Math_round (PrimFloat.mul (ToNumber tn (get (body req) "amount")) 100%float)).
Proof.
  intros Hin.
  destruct (create_payment_intent_calls tn stripe req)
    as [[Hnone _] | (g & _ & _ & [(e & _ & Hone & _) | (customer & ip' & _ & Htwo & Ha & _)])].
  - rewrite Hnone in Hin. destruct Hin.
  - rewrite Hone in Hin. destruct Hin as [Hin|[]]. discriminate.
  - rewrite Htwo in Hin. destruct Hin as [Hin|[Hin|[]]]; [discriminate|].
    injection Hin as <-. exact Ha.
Qed.

(** Whatever the gateway answers, the main handler does not refuse an
    infinite amount itself: it starts by creating the customer. *)
Lemma infinite_amount_reaches_gateway (tn : value -> float) (g : Gateway) :
  exists rest,
    issued (run (Server.create_payment_intent tn (Some g) infinite_amount_request))
    = CustomersCreate (Obj [("email", Str "ann@example.com"); ("name", Str "Ann")]) :: rest.
Proof.
  unfold run, issued, Server.create_payment_intent, Server.uninitialized.
  simpl. unfold try_catch, bind, stripe_call. simpl.
  destruct (g [] _) as [e|customer]; simpl.
  { destruct (code_is e _); eexists; reflexivity. }
  destruct (g [_] _) as [e|intent]; simpl.
  { destruct (code_is e _); eexists; reflexivity. }
  destruct intent; simpl; eexists; reflexivity.
Qed.

(** C4 (code defect): the main handler's check [!amount || amount <= 0]
    does not refuse [Infinity], which the claim wants answered with 400.
    On a body [{"amount": 1e999, "metadata": m}] with a name and an email
    in [m] the handler goes on to create the customer, and when the
    gateway rejects that call, with any code but the one the handler
    reads as a wrong amount, the response is 500.  The serverless build,
    whose check uses [Number.isFinite], answers 400 to the same request
    without a call. *)
Theorem infinite_amount_is_left_to_the_gateway (tn : value -> float) (g : Gateway)
  (m : value) (err : error) :
  let req := post (Obj [("amount", Num PrimFloat.infinity); ("metadata", m)]) in
  let create_customer :=
    CustomersCreate (Obj [("email", get m "email"); ("name", get m "name")]) in
  nullish m = false ->
  truthy (get m "name") = true ->
  truthy (get m "email") = true ->
  g [] create_customer = inl err ->
  code_is err "parameter_invalid_integer" = false ->
  refusable PrimFloat.infinity = true
  /\ run (Server.create_payment_intent tn (Some g) req)
     = ([Called create_customer;
         Console Error "Error creating payment intent:" [ShownError err]],
        inr (mkResponse 500 (Obj [("error", Str "Failed to create payment intent");
                                  ("details", Str (message err))])))
  /\ run (Serverless.create_payment_intent tn (Some g) req)
     = ([], inr (mkResponse 400 (Obj [("error", Str "Invalid amount provided.")]))).
Proof.
  intros req create_customer Hm Hname Hemail Hg Hcode.
  split; [reflexivity|]. split; [|reflexivity].
  unfold run, Server.create_payment_intent, Server.uninitialized, req, post.
  cbn [body stripe_ready negb].
  rewrite (destructure_ok (Obj _) _ _ eq_refl), bind_ret.
  change (get (Obj [("amount", Num PrimFloat.infinity); ("metadata", m)]) "metadata") with m.
  change (get (Obj [("amount", Num PrimFloat.infinity); ("metadata", m)]) "amount")
    with (Num PrimFloat.infinity).
  rewrite (destructure_ok _ _ _ Hm), bind_ret.
  unfold js_not. rewrite Hname, Hemail.
  change (negb true || negb true) with false.
  change (negb (truthy (Num PrimFloat.infinity))
          || PrimFloat.leb (ToNumber tn (Num PrimFloat.infinity)) PrimFloat.zero) with false.
  cbv iota. unfold try_catch. rewrite bind_call.
  change (calls_of []) with (@nil Call). fold create_customer. rewrite Hg.
  unfold bind, console, respond, ret. rewrite Hcode. reflexivity.
Qed.

(** With an email address the gateway accepts, the same amount is refused
    by the gateway alone, after the customer has been created. *)
Lemma infinite_amount_creates_a_customer (tn : value -> float) :
  run (Server.create_payment_intent tn (Some checking) infinite_amount_request)
  = ([Called (CustomersCreate (Obj [("email", Str "ann@example.com"); ("name", Str "Ann")]));
      Called (PaymentIntentsCreate
                (Obj [("amount", Num PrimFloat.infinity);
                      ("currency", Str "usd");
                      ("payment_method_types", Arr [Str "card_present"]);
                      ("metadata", Obj [("name", Str "ann@example.com");
                                        ("email", Str "ann@example.com");
                                        ("order", Str "7")]);
                      ("receipt_email", Str "ann@example.com");
                      ("customer", Str "cus_1");
                      ("shipping",
                       Obj [("name", Str "Ann");
                            ("address", Obj [("line1", Str ""); ("city", Str "");
                                             ("state", Str ""); ("postal_code", Str "");
                                             ("country", Str "")])])]));
      Console Error "Error creating payment intent:" [ShownError invalid_integer]],
     inr (mkResponse 400 (Obj [("error", Str "Invalid amount provided")]))).
Proof. reflexivity. Qed.

(** C8, as the code has it: on the main server every create-payment-intent
    request answered with 200 has issued exactly two calls: the creation of
    a customer from the supplied email and name, answered by the gateway
    before anything else is sent, and then the creation of the intent,
    whose [customer] is the id of that customer. *)
Theorem customer_created_before_intent (tn : value -> float) (stripe : Stripe)
  (req : Request) (r : Response) :
  answered (run (Server.create_payment_intent tn stripe req)) = Some r ->
  status r = 200 ->
  exists g customer ip,
    let m := get (body req) "metadata" in
    let create_customer := CustomersCreate (Obj [("email", get m "email");
                                                 ("name", get m "name")]) in
    stripe = Some g
    /\ issued (run (Server.create_payment_intent tn stripe req))
       = [create_customer; PaymentIntentsCreate ip]
    /\ g [] create_customer = inr customer
    /\ get ip "customer" = opt_prop customer "id".
Proof.
  intros Hr H200.
  destruct (create_payment_intent_calls tn stripe req)
    as [[_ Hno] | (g & -> & _ & [(e & _ & _ & Hno) | (customer & ip & Hc & Hcalls & _ & Hid & _)])].
  - destruct (Hno r Hr H200).
  - destruct (Hno r Hr H200).
  - exists g, customer, ip. cbv zeta. repeat split; assumption.
Qed.

Lemma customer_created_before_intent_witness :
  exists g customer ip,
    Some accepting = Some g
    /\ issued (run (Server.create_payment_intent numbers_only (Some accepting) paying_request))
       = [CustomersCreate (Obj [("email", Str "ann@example.com"); ("name", Str "Ann")]);
          PaymentIntentsCreate ip]
    /\ g [] (CustomersCreate (Obj [("email", Str "ann@example.com"); ("name", Str "Ann")]))
       = inr customer
    /\ get ip "customer" = opt_prop customer "id".
Proof.
  apply (customer_created_before_intent numbers_only (Some accepting) paying_request
           (mkResponse 200 (Obj [("paymentIntentId", Str "pi_1");
                                 ("clientSecret", Str "pi_1_secret")]))).
  - vm_compute. reflexivity.
  - reflexivity.
Defined.

(** C8, as the specification states it, fails on the serverless build:
    a request is answered with 200 after one call, the creation of the
    intent; no customer is created. *)
Lemma serverless_intent_without_customer :
  let o := run (Serverless.create_payment_intent numbers_only (Some accepting)
                  paying_request) in
  answered o = Some (mkResponse 200 (Obj [("paymentIntentId", Str "pi_1");
                                          ("clientSecret", Str "pi_1_secret")]))
  /\ existsb is_customers_create (issued o) = false
  /\ List.length (issued o) = 1%nat.
Proof. vm_compute. repeat split. Qed.

(** C9: whenever the main create-payment-intent handler sends the intent
    to the gateway, the [metadata] it sends has [name] set to the supplied
    email, whatever [metadata.name] was; every other key is forwarded as
    supplied. *)
Theorem forwarded_metadata_name_is_email (tn : value -> float) (stripe : Stripe)
  (req : Request) (ip : value) :
  In (PaymentIntentsCreate ip) (issued (run (Server.create_payment_intent tn stripe req))) ->
  let supplied := get (body req) "metadata" in
  get (get ip "metadata") "name" = get supplied "email"
  /\ forall k, k <> "name" -> get (get ip "metadata") k = get supplied k.
Proof.
  intros Hin. cbv zeta.
  destruct (create_payment_intent_calls tn stripe req)
    as [[Hnone _] | (g & _ & Hv & [(e & _ & Hone & _) | (customer & ip' & _ & Htwo & _ & _ & Hm)])].
  - rewrite Hnone in Hin. destruct Hin.
  - rewrite Hone in Hin. destruct Hin as [Hin|[]]. discriminate.
  - rewrite Htwo in Hin. destruct Hin as [Hin|[Hin|[]]]; [discriminate|].
    injection Hin as <-. rewrite Hm. split; [apply get_set_same|].
    intros k Hk. rewrite (get_set_other _ _ _ _ Hk).
    unfold passes_validation in Hv. rewrite !andb_true_iff in Hv.
    destruct Hv as [[[[[_ _] Hname] _] _] _].
    destruct (get (body req) "metadata"); simpl in Hname; try discriminate. reflexivity.
Qed.

Lemma forwarded_metadata_name_is_email_witness :
  get (get paying_intent_params "metadata") "name" = Str "ann@example.com"
  /\ forall k, k <> "name" ->
               get (get paying_intent_params "metadata") k = get customer_metadata k.
Proof.
  apply (forwarded_metadata_name_is_email numbers_only (Some accepting) paying_request
           paying_intent_params).
  vm_compute. right. left. reflexivity.
Defined.

(** C10: when the body of a create-payment-intent request has no
    [metadata], the main handler throws while destructuring it, before any
    check and any call, and answers 500 with the generic failure message. *)
Theorem missing_metadata_is_500 (tn : value -> float) (g : Gateway) (req : Request) :
  get (body req) "metadata" = Undefined ->
  let o := run (Server.create_payment_intent tn (Some g) req) in
  exists details,
    answered o
    = Some (mkResponse 500 (Obj [("error", Str "Failed to create payment intent");
                                 ("details", Str details)]))
    /\ issued o = [].
Proof.
  intros H. cbv zeta.
  unfold run, answered, issued, Server.create_payment_intent, try_catch, bind. simpl.
  destruct (body req) eqn:Hb; simpl in *; try rewrite H; simpl;
    eexists; split; reflexivity.
Qed.

Lemma missing_metadata_is_500_witness :
  exists details,
    answered (run (Server.create_payment_intent numbers_only (Some accepting)
                     request_without_metadata))
    = Some (mkResponse 500 (Obj [("error", Str "Failed to create payment intent");
                                 ("details", Str details)]))
    /\ issued (run (Server.create_payment_intent numbers_only (Some accepting)
                      request_without_metadata)) = [].
Proof.
  apply (missing_metadata_is_500 numbers_only accepting request_without_metadata).
  reflexivity.
Defined.

(** ** Cancel payment intent *)

Section Cancel.
Variable g : Gateway.
Variable req : Request.
Let paymentIntentId := get (body req) "paymentIntentId".
Let readerId := get (body req) "readerId".
Hypothesis body_given : nullish (body req) = false.
Hypothesis ids_given : truthy paymentIntentId = true /\ truthy readerId = true.

Lemma cancel_reaches_retrieve :
  Server.cancel_payment_intent (Some g) req
  = try_catch
      (intent <- stripe_call (Some g) "paymentIntents" (PaymentIntentsRetrieve paymentIntentId) ;;
       intent_status <- prop intent "status" ;;
       if strict_eq intent_status (Str "succeeded")
       then respond 409
              (Obj [("error", Str "Payment already succeeded and cannot be canceled");
                    ("status", Str "succeeded");
                    ("paymentIntent", intent)])
       else if strict_eq intent_status (Str "cancelled")
       then respond 200
              (Obj [("error", Str "Payment already cancelled");
                    ("status", Str "succeeded");
                    ("paymentIntent", intent)])
       else
         reader <- stripe_call (Some g) "terminal" (ReadersCancelAction readerId) ;;
         cancelledIntent <- stripe_call (Some g) "paymentIntents"
                              (PaymentIntentsCancel paymentIntentId) ;;
         res_json (Obj [("message", Str "Payment canceled successfully");
                        ("reader", reader);
                        ("cancelledIntent", cancelledIntent)]))%js
      (fun error =>
         console Error "Error in cancel-payment-intent:" [ShownError error] ;;;
         respond 500 (Obj [("error", Str (message error))]))%js.
Proof.
  unfold Server.cancel_payment_intent, Server.uninitialized.
  rewrite (destructure_ok _ _ _ body_given), bind_ret.
  destruct ids_given as [Hp Hr]. unfold js_not.
  fold paymentIntentId readerId. rewrite Hp, Hr. reflexivity.
Qed.

Variable intent : value.
Hypothesis retrieved : g [] (PaymentIntentsRetrieve paymentIntentId) = inr intent.

Lemma cancel_succeeded :
  get intent "status" = Str "succeeded" ->
  run (Server.cancel_payment_intent (Some g) req)
  = ([Called (PaymentIntentsRetrieve paymentIntentId)],
     inr (mkResponse 409
            (Obj [("error", Str "Payment already succeeded and cannot be canceled");
                  ("status", Str "succeeded");
                  ("paymentIntent", intent)]))).
Proof.
  intros Hs. rewrite cancel_reaches_retrieve.
  unfold run, try_catch, bind, stripe_call. simpl. rewrite retrieved.
  assert (Hn : nullish intent = false) by (destruct intent; try discriminate; reflexivity).
  rewrite (prop_ok _ _ Hn). simpl. rewrite Hs. reflexivity.
Qed.

Lemma cancel_already_cancelled :
  get intent "status" = Str "cancelled" ->
  run (Server.cancel_payment_intent (Some g) req)
  = ([Called (PaymentIntentsRetrieve paymentIntentId)],
     inr (mkResponse 200
            (Obj [("error", Str "Payment already cancelled");
                  ("status", Str "succeeded");
                  ("paymentIntent", intent)]))).
Proof.
  intros Hs. rewrite cancel_reaches_retrieve.
  unfold run, try_catch, bind, stripe_call. simpl. rewrite retrieved.
  assert (Hn : nullish intent = false) by (destruct intent; try discriminate; reflexivity).
  rewrite (prop_ok _ _ Hn). simpl. rewrite Hs. reflexivity.
Qed.

Lemma cancel_other (s : string) :
  get intent "status" = Str s -> s <> "succeeded" -> s <> "cancelled" ->
  let o := run (Server.cancel_payment_intent (Some g) req) in
  let retrieve := PaymentIntentsRetrieve paymentIntentId in
  let cancelAction := ReadersCancelAction readerId in
  let cancel := PaymentIntentsCancel paymentIntentId in
  match g [retrieve] cancelAction with
  | inl e =>
      issued o = [retrieve; cancelAction]
      /\ answered o = Some (mkResponse 500 (Obj [("error", Str (message e))]))
  | inr reader =>
      issued o = [retrieve; cancelAction; cancel]
      /\ match g [retrieve; cancelAction] cancel with
         | inl e => answered o = Some (mkResponse 500 (Obj [("error", Str (message e))]))
         | inr cancelledIntent =>
             answered o
             = Some (mkResponse 200 (Obj [("message", Str "Payment canceled successfully");
                                          ("reader", reader);
                                          ("cancelledIntent", cancelledIntent)]))
         end
  end.
Proof.
  intros Hs H1 H2. cbv zeta. rewrite cancel_reaches_retrieve.
  unfold run, issued, answered, try_catch, bind, stripe_call. simpl. rewrite retrieved.
  unfold paymentIntentId, readerId in *.
  assert (Hn : nullish intent = false) by (destruct intent; try discriminate; reflexivity).
  rewrite (prop_ok _ _ Hn). simpl. rewrite Hs. simpl.
  destruct (String.eqb_spec s "succeeded") as [->|_]; [contradiction|].
  destruct (String.eqb_spec s "cancelled") as [->|_]; [contradiction|].
  simpl.
  destruct (g [_] (ReadersCancelAction _)) as [e|reader]; simpl; [split; reflexivity|].
  destruct (g [_; _] (PaymentIntentsCancel _)) as [e|ci]; simpl; split; reflexivity.
Qed.

End Cancel.

(** C1 (code defect): the handler tests the status against "cancelled",
    while the gateway spells it "canceled".  For an intent already
    canceled the handler does not answer 200 after the retrieval: it
    cancels the reader action and asks the gateway to cancel the intent
    again, and answers 500 with the gateway's refusal. *)
Theorem canceled_intent_is_cancelled_again :
  run (Server.cancel_payment_intent (Some gateway_with_canceled_intent) cancel_request)
  = ([Called (PaymentIntentsRetrieve (Str "pi_1"));
      Called (ReadersCancelAction (Str "tmr_1"));
      Called (PaymentIntentsCancel (Str "pi_1"));
      Console Error "Error in cancel-payment-intent:" [ShownError cannot_cancel]],
     inr (mkResponse 500 (Obj [("error", Str (message cannot_cancel))]))).
Proof. reflexivity. Qed.

(** ** Handlers on a client that failed to initialize *)

Lemma uninitialized_guarded (tn : value -> float) (ts : value -> error + string)
  (env : Env) (route : Server.Route)
  (req : Request) :
  route <> Server.Webhook -> route <> Server.PaymentIntentStatus ->
  run (Server.handle tn ts None env route req) = ([], inr not_initialized).
Proof.
  intros Hw Hp. destruct route; try contradiction; reflexivity.
Qed.

Lemma payment_intent_status_uninitialized (req : Request) :
  exists line,
  run (Server.payment_intent_status None req)
  = (line, inr (mkResponse 500 (Obj [("error", Str "Failed to fetch payment intent status")]))).
Proof.
  unfold run, Server.payment_intent_status, try_catch, bind.
  destruct (query req); simpl; eexists; reflexivity.
Qed.

Lemma webhook_uninitialized (ts : value -> error + string) (env : Env) (req : Request) :
  exists t r,
    run (Server.webhook ts None env req) = (t, inr r) /\ r <> not_initialized.
Proof.
  unfold run, Server.webhook, Server.webhook_verify, try_catch, bind.
  destruct (Server.webhook_secret env); simpl; eexists; eexists; (split; [reflexivity|]);
    discriminate.
Qed.

(** C3 (code defect): two routes lack the check the others start with.
    On an uninitialized client the status route answers 500 with its own
    failure message, and the webhook, with its secret configured, answers
    400 as if the signature were wrong; neither sends the fixed "not
    initialized" response. *)
Theorem unguarded_routes_when_uninitialized (tn : value -> float) (ts : value -> error + string) :
  let o1 := run (Server.handle tn ts None configured_env Server.PaymentIntentStatus
                   status_request) in
  let o2 := run (Server.handle tn ts None configured_env Server.Webhook webhook_request) in
  o1 = ([], inr (mkResponse 500 (Obj [("error", Str "Failed to fetch payment intent status")])))
  /\ answered o2
     = Some (mkResponse 400
               (Obj [("error",
                      Str "Webhook Error: Cannot read properties of undefined (reading 'webhooks')")]))
  /\ answered o1 <> Some not_initialized
  /\ answered o2 <> Some not_initialized.
Proof.
  cbv zeta. split; [reflexivity|]. split; [reflexivity|]. split; discriminate.
Qed.

(** ** Create location *)

(** C5, as the code has it: with the client initialized, create-location
    answers 400 exactly when one of the six fields is missing or otherwise
    falsy (null, empty, 0, false), or the gateway rejects the address with
    the code [invalid_request_error]. *)
Theorem create_location_400_iff (g : Gateway) (req : Request) :
  nullish (body req) = false ->
  exists r,
    answered (run (Server.create_location (Some g) req)) = Some r
    /\ (status r = 400 <->
        some_field_falsy (body req) = true
        \/ exists e, g [] (LocationsCreate (location_params (body req))) = inl e
                     /\ code_is e "invalid_request_error" = true).
Proof.
  intros Hb. unfold Server.create_location, Server.uninitialized.
  rewrite (destructure_ok _ _ _ Hb), bind_ret.
  unfold some_field_falsy, Server.location_fields, existsb.
  rewrite orb_false_r, !orb_assoc.
  destruct (_ || _ || _ || _ || _ || js_not (get (body req) "postal_code")) eqn:Hf.
  - eexists. split; [reflexivity|]. simpl. split; [now left | reflexivity].
  - unfold run, answered, try_catch, bind, stripe_call, location_params. simpl.
    destruct (g [] (LocationsCreate _)) as [e|location] eqn:Hg; simpl.
    + destruct (code_is e "invalid_request_error") eqn:Hc; simpl.
      * eexists. split; [reflexivity|]. simpl. split; [|reflexivity].
        intros _. right. exists e. split; [reflexivity | exact Hc].
      * eexists. split; [reflexivity|]. simpl. split; [discriminate|].
        intros [H | (e' & [= <-] & H)]; [discriminate | congruence].
    + eexists. split; [reflexivity|]. simpl. split; [discriminate|].
      intros [H | (e' & H & _)]; discriminate.
Qed.

Lemma create_location_400_iff_witness :
  exists r,
    answered (run (Server.create_location (Some address_rejecting_gateway)
                     (post location_with_label))) = Some r
    /\ (status r = 400 <->
        some_field_falsy location_with_label = true
        \/ exists e,
             address_rejecting_gateway [] (LocationsCreate (location_params location_with_label))
             = inl e
             /\ code_is e "invalid_request_error" = true).
Proof.
  apply (create_location_400_iff address_rejecting_gateway (post location_with_label)).
  reflexivity.
Defined.

(** C5, as the specification states it, fails: a body in which all six
    fields are present, the label being the empty string, is answered
    with 400. *)
Lemma empty_label_is_refused :
  some_field_absent location_with_empty_label = false
  /\ run (Server.create_location (Some accepting) (post location_with_empty_label))
     = ([], inr (mkResponse 400 (Obj [("error", Str "Missing required address fields");
                                      ("required", Arr (map Str Server.location_fields))]))).
Proof. split; reflexivity. Qed.

(** ** Webhook *)

(** What the global parsers and the route's own leave in [req.body] is
    never the body as it was sent: a body of type JSON has been parsed by
    [express.json()] before [express.raw] sees it, and any other body is
    not of the type [express.raw] is asked to keep. *)
Lemma delivered_body_is_not_raw (JSON_parse : string -> error + value)
  (strict_error : string -> error) (parse_form : string -> list (string * value))
  (inc : Server.Incoming) (after_json : Server.Parsed) :
  parses_documents JSON_parse ->
  Server.express_json JSON_parse strict_error inc (Server.mkParsed Undefined false)
  = inr after_json ->
  is_raw (Server.parsed_body
            (Server.express_raw inc (Server.express_urlencoded parse_form inc after_json)))
  = false.
Proof.
  intros Hparse.
  unfold Server.express_json, Server.express_urlencoded, Server.express_raw.
  cbn [Server.parsed_already Server.parsed_body].
  destruct (negb (Server.has_body inc) || negb (Server.json_type inc)) eqn:Hjson.
  - intros [= <-]. cbn [Server.parsed_already Server.parsed_body].
    destruct (negb (Server.has_body inc) || negb (Server.form_type inc)); reflexivity.
  - destruct (String.eqb (Server.payload inc) EmptyString).
    + intros [= <-]. reflexivity.
    + destruct (Server.starts_document (Server.payload inc)) eqn:Hstart;
        [|discriminate]. cbn [negb].
      destruct (JSON_parse (Server.payload inc)) as [err|parsed] eqn:Hp;
        intros [= <-]. cbn [Server.parsed_already Server.parsed_body].
      exact (Hparse _ _ Hstart Hp).
Qed.

(** The handler on a body that is not raw: the verification throws, or
    is not reached for want of a secret. *)
Lemma parsed_body_is_not_verified (ts : value -> error + string) (stripe : Stripe)
  (env : Env) (req : Request) :
  verifies_raw_only stripe ->
  is_raw (body req) = false ->
  exists t r,
    run (Server.webhook ts stripe env req) = (t, inr r)
    /\ status r = match Server.webhook_secret env with Some _ => 400 | None => 500 end
    /\ dispatched (t, inr r) = false.
Proof.
  intros Hg Hraw.
  unfold run, Server.webhook, Server.webhook_verify, try_catch, bind.
  destruct (Server.webhook_secret env) as [secret|]; simpl.
  - destruct stripe as [g|]; simpl.
    + destruct (Hg [] (body req) (get (headers req) "stripe-signature") secret Hraw)
        as [err ->].
      eexists. eexists. split; [reflexivity|]. split; reflexivity.
    + eexists. eexists. split; [reflexivity|]. split; reflexivity.
  - eexists. eexists. split; [reflexivity|]. split; reflexivity.
Qed.

(** C6 (code defect): the route as it is mounted acknowledges no
    delivery.  Whatever is posted to /webhook, with a valid signature or
    not, the client library is handed the parsed body and refuses it: the
    response is 400 when the body could be parsed and the secret is
    configured, 500 otherwise, and the switch over the event type is
    never reached. *)
Theorem webhook_route_acknowledges_nothing (JSON_parse : string -> error + value)
  (strict_error : string -> error) (parse_form : string -> list (string * value))
  (ts : value -> error + string) (stripe : Stripe) (env : Env) (inc : Server.Incoming) :
  parses_documents JSON_parse ->
  verifies_raw_only stripe ->
  exists t r,
    run (Server.webhook_route JSON_parse strict_error parse_form ts stripe env inc)
    = (t, inr r)
    /\ status r
       = match Server.express_json JSON_parse strict_error inc
                 (Server.mkParsed Undefined false),
               Server.webhook_secret env with
         | inr _, Some _ => 400
         | _, _ => 500
         end
    /\ dispatched (t, inr r) = false.
Proof.
  intros Hparse Hg. unfold Server.webhook_route.
  destruct (Server.express_json JSON_parse strict_error inc (Server.mkParsed Undefined false))
    as [err|after_json] eqn:Hjson.
  - eexists. eexists. split; [reflexivity|]. split; reflexivity.
  - apply (parsed_body_is_not_verified ts stripe env _ Hg).
    exact (delivered_body_is_not_raw JSON_parse strict_error parse_form inc after_json
             Hparse Hjson).
Qed.

Lemma signing_gateway_raw_only : raw_only signing_gateway.
Proof.
  intros t payload header secret Hraw.
  destruct payload; try discriminate; eexists; reflexivity.
Qed.

Lemma delivery_parse_documents : parses_documents delivery_parse.
Proof.
  intros text parsed _. unfold delivery_parse.
  destruct (String.eqb text delivery_text); [|discriminate].
  intros [= <-]. reflexivity.
Qed.

(** The delivery of [refund_event] under its own signature: the handler
    behind [express.raw] alone would acknowledge it, the route answers 400
    and leaves the switch alone. *)
Lemma webhook_route_acknowledges_nothing_witness :
  run (Server.webhook strings_only (Some signing_gateway) configured_env raw_request)
  = ([Called (WebhooksConstructEvent (Str delivery_text) (Str delivery_signature)
                "whsec_test");
      Console Warn "Unhandled event type: charge.refunded" []],
     inr (mkResponse 200 (Obj [("received", Bool true)])))
  /\ exists t r,
       run (Server.webhook_route delivery_parse not_a_document no_form strings_only
              (Some signing_gateway) configured_env signed_delivery) = (t, inr r)
       /\ status r = 400
       /\ dispatched (t, inr r) = false.
Proof.
  split; [reflexivity|].
  exact (webhook_route_acknowledges_nothing delivery_parse not_a_document no_form
           strings_only (Some signing_gateway) configured_env signed_delivery
           delivery_parse_documents signing_gateway_raw_only).
Defined.

(** The response to the signed delivery, in full. *)
Lemma signed_delivery_is_rejected :
  run (Server.webhook_route delivery_parse not_a_document no_form strings_only (Some signing_gateway)
         configured_env signed_delivery)
  = ([Called (WebhooksConstructEvent refund_event (Str delivery_signature) "whsec_test");
      Console Error
        ("Webhook signature verification failed: " ++ message payload_not_raw) []],
     inr (mkResponse 400 (Obj [("error", Str ("Webhook Error: " ++ message payload_not_raw))]))).
Proof. reflexivity. Qed.

(** A delivery under a signature that is not its own gets the same
    response, for the same reason: no signature has been compared. *)
Lemma tampered_delivery_is_rejected :
  answered (run (Server.webhook_route delivery_parse not_a_document no_form strings_only
                   (Some signing_gateway) configured_env tampered_delivery))
  = Some (mkResponse 400
            (Obj [("error", Str ("Webhook Error: " ++ message payload_not_raw))])).
Proof. reflexivity. Qed.

(** The handler alone: when the verification throws, the response is 400
    and the switch is not reached. *)
Lemma failed_verification_is_rejected (ts : value -> error + string) (g : Gateway)
  (env : Env) (req : Request) (secret : string) (err : error) :
  Server.webhook_secret env = Some secret ->
  let verify :=
    WebhooksConstructEvent (body req) (get (headers req) "stripe-signature") secret in
  let o := run (Server.webhook ts (Some g) env req) in
  g [] verify = inl err ->
  o = ([Called verify;
        Console Error ("Webhook signature verification failed: " ++ message err) []],
       inr (mkResponse 400 (Obj [("error", Str ("Webhook Error: " ++ message err))])))
  /\ dispatched o = false.
Proof.
  intros Hs. cbv zeta.
  unfold run, dispatched, Server.webhook, Server.webhook_verify, try_catch, bind, stripe_call.
  rewrite Hs. simpl. intros ->. simpl. split; reflexivity.
Qed.

(** ** List products *)

Lemma mapM_ret {A B} (f : A -> M B) (h : A -> B) (l : list A) :
  (forall x, In x l -> f x = ret (h x)) -> mapM f l = ret (map h l).
Proof.
  induction l as [|x l IH]; intros H; simpl; [reflexivity|].
  rewrite (H x (or_introl eq_refl)), bind_ret, IH, bind_ret; [reflexivity|].
  intros y Hy. apply H. now right.
Qed.

Lemma price_matches_ret (product p : value) :
  nullish product = false -> nullish p = false ->
  Server.price_matches product p = ret (matches product p).
Proof.
  intros Hprod Hp. unfold Server.price_matches, matches.
  rewrite (prop_ok _ _ Hp), bind_ret, (prop_ok _ _ Hprod), bind_ret.
  destruct (strict_eq _ _); [|reflexivity].
  now rewrite (prop_ok _ _ Hp), bind_ret.
Qed.

Lemma findM_ret (product : value) (prices : list value) :
  nullish product = false -> objects prices ->
  findM (Server.price_matches product) prices = ret (price_for prices product).
Proof.
  intros Hprod Hps. unfold price_for.
  induction Hps as [|p prices Hp Hps IH]; simpl; [reflexivity|].
  rewrite (price_matches_ret _ _ Hprod Hp), bind_ret.
  destruct (matches product p); [reflexivity | exact IH].
Qed.

Lemma find_first {A} (f : A -> bool) (l : list A) (x : A) :
  find f l = Some x ->
  exists j, nth_error l j = Some x /\ f x = true
            /\ forall i y, (i < j)%nat -> nth_error l i = Some y -> f y = false.
Proof.
  induction l as [|a l IH]; simpl; [discriminate|].
  destruct (f a) eqn:Ha.
  - intros [= ->]. exists 0%nat. repeat split; [exact Ha|]. intros i y Hi. lia.
  - intros H. destruct (IH H) as (j & Hj & Hx & Hfirst).
    exists (S j). repeat split; [exact Hj | exact Hx |].
    intros [|i] y Hi; simpl; [now intros [= <-] | apply Hfirst; lia].
Qed.

Lemma matches_truthy (product p : value) : matches product p = true -> truthy p = true.
Proof.
  unfold matches. intros H. apply andb_true_iff in H. destruct H as [_ H].
  destruct p; simpl in *; try discriminate; reflexivity.
Qed.

Lemma product_entry_ret (tn : value -> float) (product price : value) :
  nullish product = false ->
  Server.product_entry tn product price = ret (entry_of tn product price).
Proof.
  intros H. unfold entry_of, Server.product_entry.
  rewrite !(prop_ok _ _ H), !bind_ret. reflexivity.
Qed.

Lemma entry_price (tn : value -> float) (product price : value) :
  nullish product = false ->
  get (entry_of tn product price) "price"
  = (if truthy price
     then Num (PrimFloat.div (ToNumber tn (get price "unit_amount")) 100%float)
     else Num PrimFloat.zero)
  /\ get (entry_of tn product price) "currency"
     = (if truthy price then get price "currency" else Str "usd").
Proof.
  intros H. unfold entry_of, Server.product_entry.
  rewrite !(prop_ok _ _ H), !bind_ret. split; reflexivity.
Qed.

Section Products.
Variable tn : value -> float.
Variable g : Gateway.
Variable req : Request.
Variables products prices : value.
Variables ps qs : list value.
Hypothesis products_listed : g [] (ProductsList list_params) = inr products.
Hypothesis prices_listed : g [ProductsList list_params] (PricesList list_params) = inr prices.
Hypothesis products_data : get products "data" = Arr ps.
Hypothesis prices_data : get prices "data" = Arr qs.
Hypothesis products_objects : objects ps.
Hypothesis prices_objects : objects qs.

Lemma products_response :
  run (Server.products tn (Some g) req)
  = ([Called (ProductsList list_params); Called (PricesList list_params)],
     inr (mkResponse 200 (Arr (map (fun product => entry_of tn product (price_for qs product)) ps)))).
Proof.
  assert (Hp : nullish products = false)
    by (destruct products; try discriminate; reflexivity).
  assert (Hq : nullish prices = false)
    by (destruct prices; try discriminate; reflexivity).
  unfold run, Server.products, Server.uninitialized, try_catch.
  fold list_params.
  rewrite bind_call. cbn [calls_of app]. rewrite products_listed.
  rewrite bind_call. cbn [calls_of app]. rewrite prices_listed.
  rewrite (prop_ok _ _ Hp), bind_ret, products_data. unfold Array_map.
  rewrite (mapM_ret _ (fun product => entry_of tn product (price_for qs product))).
  - reflexivity.
  - intros product Hin.
    assert (Hprod : nullish product = false)
      by (revert product Hin; apply Forall_forall; exact products_objects).
    rewrite (prop_ok _ _ Hq), bind_ret, prices_data. unfold Array_find.
    rewrite (findM_ret _ _ Hprod prices_objects), bind_ret.
    apply product_entry_ret. exact Hprod.
Qed.

End Products.





(** ** List invoices *)

Lemma effective_rank_cases (status : value) :
  In (effective_rank status) [1; 2; 3; 4; 99].
Proof.
  destruct status; simpl; auto 6.
  repeat match goal with |- context [if ?c then _ else _] => destruct c end; auto 6.
Qed.

Lemma status_rank_num (tn : value -> float) (ts : value -> error + string)
  (status : value) :
  plain_status status = true ->
  exists key,
    ToString ts status = inr key
    /\ slot_number tn (Server.status_rank key) = of_Z (effective_rank status).
Proof.
  destruct status as [| |[|]|x|s|f|l]; try discriminate; intros Hp;
    try (eexists; split; reflexivity).
  exists s. split; [reflexivity|].
  unfold Server.status_rank, member, Server.statusOrder, assoc, effective_rank.
  unfold plain_status, plain_key in Hp. apply negb_true_iff in Hp.
  destruct (String.eqb_spec s "open") as [->|_]; [reflexivity|].
  destruct (String.eqb s "draft"); [reflexivity|].
  destruct (String.eqb s "uncollectible"); [reflexivity|].
  destruct (String.eqb s "paid"); [reflexivity|].
  destruct (String.eqb s "void"); [reflexivity|].
  rewrite Hp. reflexivity.
Qed.

Lemma rank_difference (a b : Z) :
  In a [1; 2; 3; 4; 99] -> In b [1; 2; 3; 4; 99] ->
  PrimFloat.ltb PrimFloat.zero (PrimFloat.sub (of_Z b) (of_Z a)) = (a <? b).
Proof.
  simpl. intros Ha Hb.
  repeat match goal with H : _ \/ _ |- _ => destruct H as [<-|H] end;
    try contradiction; vm_compute; reflexivity.
Qed.

Lemma is_invoice_object (v : value) : is_invoice v = true -> nullish v = false.
Proof. unfold is_invoice. intros H. apply andb_prop in H. now apply negb_true_iff. Qed.

Lemma invoice_list_objects (l : list value) : invoice_list l -> objects l.
Proof. apply Forall_impl. exact is_invoice_object. Qed.

Lemma compare_invoices_ret (tn : value -> float) (ts : value -> error + string)
  (a b : value) :
  is_invoice a = true -> is_invoice b = true ->
  exists c, Server.compare_invoices tn ts a b = ret c
            /\ PrimFloat.ltb PrimFloat.zero c = (invoice_rank a <? invoice_rank b).
Proof.
  intros Ha Hb. unfold Server.compare_invoices.
  rewrite (prop_ok _ _ (is_invoice_object _ Hb)), bind_ret.
  apply andb_prop in Ha, Hb.
  destruct (status_rank_num tn ts (get b "status") (proj2 Hb)) as (kb & -> & Hrb).
  cbn [lift]. rewrite bind_ret.
  rewrite (prop_ok _ _ (proj1 (negb_true_iff _) (proj1 Ha))), bind_ret.
  destruct (status_rank_num tn ts (get a "status") (proj2 Ha)) as (ka & -> & Hra).
  cbn [lift]. rewrite bind_ret, Hra, Hrb.
  eexists. split; [reflexivity|].
  apply rank_difference; apply effective_rank_cases.
Qed.

Lemma insert_invoices (x : value) (l : list value) :
  is_invoice x = true -> invoice_list l -> invoice_list (insert_by_rank x l).
Proof.
  intros Hx Hl. induction Hl as [|y l Hy Hl IH]; simpl.
  - repeat constructor. exact Hx.
  - destruct (_ <? _); repeat constructor; assumption.
Qed.

Lemma sort_invoices (l : list value) : invoice_list l -> invoice_list (sort_by_rank l).
Proof.
  intros Hl. induction Hl as [|x l Hx Hl IH]; simpl; [constructor|].
  now apply insert_invoices.
Qed.

Lemma insert_ret (tn : value -> float) (ts : value -> error + string) (x : value)
  (l : list value) :
  is_invoice x = true -> invoice_list l ->
  insert (Server.compare_invoices tn ts) x l = ret (insert_by_rank x l).
Proof.
  intros Hx Hl. induction Hl as [|y l Hy Hl IH]; simpl; [reflexivity|].
  destruct (compare_invoices_ret tn ts x y Hx Hy) as (c & -> & Hc).
  rewrite bind_ret, Hc. destruct (_ <? _); [|reflexivity].
  now rewrite IH, bind_ret.
Qed.

Lemma sort_list_ret (tn : value -> float) (ts : value -> error + string) (l : list value) :
  invoice_list l -> sort_list (Server.compare_invoices tn ts) l = ret (sort_by_rank l).
Proof.
  intros Hl. induction Hl as [|x l Hx Hl IH]; simpl; [reflexivity|].
  rewrite IH, bind_ret. apply insert_ret; [exact Hx | now apply sort_invoices].
Qed.

Lemma objects_defined (l : list value) :
  objects l ->
  filter (fun x => negb (is_undefined x)) l = l /\ filter is_undefined l = [].
Proof.
  intros Hl. induction Hl as [|x l Hx Hl [IH1 IH2]]; simpl; [split; reflexivity|].
  destruct x; try discriminate; simpl; rewrite IH1, IH2; split; reflexivity.
Qed.

Lemma insert_permutation (x : value) (l : list value) :
  Permutation (x :: l) (insert_by_rank x l).
Proof.
  induction l as [|y l IH]; simpl; [reflexivity|].
  destruct (_ <? _); [|reflexivity].
  rewrite perm_swap. now apply perm_skip.
Qed.

Lemma sort_permutation (l : list value) : Permutation l (sort_by_rank l).
Proof.
  induction l as [|x l IH]; simpl; [constructor|].
  rewrite <- insert_permutation. now apply perm_skip.
Qed.

Lemma insert_descending (x : value) (l : list value) :
  descending l -> descending (insert_by_rank x l).
Proof.
  unfold descending. intros Hl. induction Hl as [|y l Hl IH Hy]; simpl.
  - repeat constructor.
  - destruct (Z.ltb_spec (invoice_rank x) (invoice_rank y)) as [Hlt|Hge].
    + constructor; [exact IH|].
      apply (Permutation_Forall (insert_permutation x l)).
      constructor; [lia | exact Hy].
    + constructor; [now constructor|].
      constructor; [lia|].
      eapply Forall_impl; [|exact Hy]. simpl. intros z Hz. lia.
Qed.

Lemma sort_descending (l : list value) : descending (sort_by_rank l).
Proof.
  induction l as [|x l IH]; simpl; [constructor | now apply insert_descending].
Qed.

(** What the handler does with a list of invoice objects: it answers
    with a permutation of the list in which the rank
    [statusOrder[status] || 99] never rises: open and unknown statuses
    first, then void, paid, uncollectible, and draft last. *)
Lemma invoices_sorted_by_effective_rank (tn : value -> float)
  (ts : value -> error + string) (g : Gateway) (req : Request)
  (invoices : value) (items : list value) :
  g [] (InvoicesList invoices_params) = inr invoices ->
  get invoices "data" = Arr items ->
  invoice_list items ->
  exists sortedInvoices,
    run (Server.invoices tn ts (Some g) req)
    = ([Called (InvoicesList invoices_params)], inr (mkResponse 200 (Arr sortedInvoices)))
    /\ Permutation items sortedInvoices
    /\ descending sortedInvoices.
Proof.
  intros Hg Hdata Hitems.
  assert (Hn : nullish invoices = false)
    by (destruct invoices; try discriminate; reflexivity).
  exists (sort_by_rank items). split; [|split].
  - unfold run, Server.invoices, Server.uninitialized, try_catch. fold invoices_params.
    rewrite bind_call. cbn [calls_of app]. rewrite Hg.
    rewrite (prop_ok _ _ Hn), bind_ret, Hdata. unfold Array_sort.
    destruct (objects_defined _ (invoice_list_objects _ Hitems)) as [-> ->].
    rewrite (sort_list_ret tn ts _ Hitems), bind_ret, app_nil_r. reflexivity.
  - apply sort_permutation.
  - apply sort_descending.
Qed.

(** C2 (code defect): on the specification's own example, statuses paid,
    open, void, draft, the response is ordered open, void, paid, draft,
    not open, draft, paid, void: the comparator subtracts the rank of [a]
    from that of [b], so higher ranks come first, and the rank 0 of "open"
    is falsy and becomes 99. *)
Theorem invoices_sample_order (tn : value -> float) (ts : value -> error + string) (req : Request) :
  run (Server.invoices tn ts (Some invoicing_gateway) req)
  = ([Called (InvoicesList invoices_params)],
     inr (mkResponse 200
            (Arr [invoice "in_2" "open"; invoice "in_3" "void"; invoice "in_1" "paid";
                  invoice "in_4" "draft"])))
  /\ ordered_as_in_spec [invoice "in_2" "open"; invoice "in_3" "void"; invoice "in_1" "paid";
                         invoice "in_4" "draft"] = false
  /\ ordered_as_in_spec [invoice "in_2" "open"; invoice "in_4" "draft"; invoice "in_1" "paid";
                         invoice "in_3" "void"] = true.
Proof. split; [reflexivity|]. split; reflexivity. Qed.

(** ** Rounding *)

Lemma Math_round_examples :
  Math_round 2.5%float = 3%float
  /\ Math_round (-2.5)%float = (-2)%float
  /\ Math_round (PrimFloat.mul 12.5%float 100%float) = 1250%float
  /\ Math_round (-0.25)%float = (-0)%float
  /\ Math_round 0.25%float = 0%float
  /\ Math_round PrimFloat.infinity = PrimFloat.infinity.
Proof. repeat split. Qed.

(** ** Every route of the main server *)

Lemma try_catch_answers (l : list Z) (m : M Response) (h : error -> M Response) :
  returns_in l m -> (forall e, answers_in l (h e)) -> answers_in l (try_catch m h).
Proof.
  intros Hm Hh t. unfold try_catch. destruct (m t) as [t' [e|r]] eqn:E.
  - apply Hh.
  - exists t', r. split; [reflexivity | exact (Hm _ _ _ E)].
Qed.

Lemma returns_bind {A} (l : list Z) (m : M A) (k : A -> M Response) :
  (forall a, returns_in l (k a)) -> returns_in l (bind m k).
Proof.
  intros Hk t t' r. unfold bind. destruct (m t) as [t1 [e|a]]; [discriminate|].
  apply Hk.
Qed.

Lemma returns_respond (l : list Z) (n : Z) (v : value) :
  In n l -> returns_in l (respond n v).
Proof. intros Hn t t' r [= <- <-]. exact Hn. Qed.

Lemma returns_ret (l : list Z) (r : Response) :
  In (status r) l -> returns_in l (ret r).
Proof. intros Hn t t' r' [= <- <-]. exact Hn. Qed.

Lemma returns_if (l : list Z) (c : bool) (m1 m2 : M Response) :
  returns_in l m1 -> returns_in l m2 -> returns_in l (if c then m1 else m2).
Proof. destruct c; auto. Qed.

Lemma answers_bind_console (l : list Z) (lv : Level) (text : string) (sh : list Shown)
  (m : M Response) :
  answers_in l m -> answers_in l (bind (console lv text sh) (fun _ => m)).
Proof. intros Hm t. unfold bind, console. apply Hm. Qed.

Lemma answers_respond (l : list Z) (n : Z) (v : value) :
  In n l -> answers_in l (respond n v).
Proof. intros Hn t. exists t. eexists. split; [reflexivity | exact Hn]. Qed.

Lemma answers_if (l : list Z) (c : bool) (m1 m2 : M Response) :
  answers_in l m1 -> answers_in l m2 -> answers_in l (if c then m1 else m2).
Proof. destruct c; auto. Qed.

Ltac in_list := simpl; tauto.

Ltac returns :=
  repeat first
    [ apply returns_respond; in_list
    | apply returns_ret; in_list
    | apply returns_if
    | apply returns_bind; intros ?
    | progress cbv zeta
    | match goal with
      | |- returns_in _ (match ?x with _ => _ end) => destruct x
      end ].

Ltac answers :=
  repeat first
    [ apply answers_respond; in_list
    | apply answers_if
    | apply answers_bind_console ].

Ltac handler := apply try_catch_answers; [returns | intros ?; answers].

Lemma webhook_verify_outcome (stripe : Stripe) (env : Env) (req : Request) (t : list Event) :
  exists t' x,
    Server.webhook_verify stripe env req t = (t', inr x)
    /\ match x with
       | inl r => status r = 400 \/ status r = 500
       | inr _ => True
       end.
Proof.
  unfold Server.webhook_verify, try_catch, bind, console, respond, ret, stripe_call.
  destruct (Server.webhook_secret env) as [secret|]; simpl.
  - destruct stripe as [g|]; simpl.
    + destruct (g (calls_of t) _) as [e|event]; simpl; eexists; eexists;
        (split; [reflexivity|]); simpl; auto.
    + eexists; eexists; (split; [reflexivity|]); simpl; auto.
  - eexists; eexists; (split; [reflexivity|]); simpl; auto.
Qed.

Lemma webhook_dispatch_answers (ts : value -> error + string) (event : value) :
  answers_in [200; 500] (Server.webhook_dispatch ts event).
Proof.
  unfold Server.webhook_dispatch. apply try_catch_answers.
  - apply returns_bind. intros type. apply returns_bind. intros _.
    apply returns_respond. in_list.
  - intros e. answers.
Qed.

(** Every route of the main server answers every request, whatever the
    client and the gateway do, and with one of the statuses listed for
    the route: nothing escapes its [try]. *)
Theorem handle_answers_with_listed_status (tn : value -> float) (ts : value -> error + string)
  (stripe : Stripe) (env : Env)
  (route : Server.Route) (req : Request) :
  exists t r,
    run (Server.handle tn ts stripe env route req) = (t, inr r)
    /\ In (status r) (statuses route).
Proof.
  unfold run.
  enough (H : answers_in (statuses route) (Server.handle tn ts stripe env route req))
    by apply H.
  destruct route; simpl.
  - unfold Server.connection_token. handler.
  - unfold Server.register_reader. handler.
  - unfold Server.create_location. handler.
  - unfold Server.products. handler.
  - unfold Server.create_payment_intent. handler.
  - unfold Server.process_payment. handler.
  - unfold Server.simulate_payment. handler.
  - intros t. unfold Server.webhook, bind.
    destruct (webhook_verify_outcome stripe env req t) as (t' & x & -> & Hx).
    destruct x as [r|event].
    + exists t', r. split; [reflexivity|]. simpl. destruct Hx as [Hx|Hx]; rewrite Hx; tauto.
    + destruct (webhook_dispatch_answers ts event t') as (t'' & r & -> & Hr).
      exists t'', r. split; [reflexivity|]. simpl in *. tauto.
  - unfold Server.customers. handler.
  - unfold Server.invoices. handler.
  - unfold Server.invoices_pay. handler.
  - unfold Server.cancel_payment_intent. handler.
  - unfold Server.payment_intent_status. handler.
Qed.

Lemma calls_of_app (t u : list Event) : calls_of (t ++ u) = calls_of t ++ calls_of u.
Proof.
  induction t as [|[c|l s d] t IH]; simpl; [reflexivity | now rewrite IH | exact IH].
Qed.

Lemma sequential_app {A B} (g : Gateway) (before new1 new2 : list Call) (a : A)
  (res : error + B) :
  sequential g before new1 (inr a : error + A) ->
  sequential g (before ++ new1) new2 res ->
  sequential g before (new1 ++ new2) res.
Proof.
  revert before. induction new1 as [|c new1 IH]; intros before H1 H2; simpl in *.
  - now rewrite app_nil_r in H2.
  - destruct (g before c) as [e|v].
    + destruct H1 as [_ H1]. discriminate.
    + apply IH; [exact H1|]. now rewrite <- app_assoc.
Qed.

Lemma sequential_thrown {A B} (g : Gateway) (before new : list Call) (e : error) :
  sequential g before new (inl e : error + A) ->
  sequential g before new (inl e : error + B).
Proof.
  revert before. induction new as [|c new IH]; intros before H; simpl in *; [exact I|].
  destruct (g before c) as [e'|v].
  - destruct H as [-> [= ->]]. split; reflexivity.
  - apply IH. exact H.
Qed.

Lemma quiet_orderly {A} (g : Gateway) (m : M A) : quiet m -> orderly g m.
Proof.
  intros H t t' res E. exists []. rewrite app_nil_r. split; [exact (H _ _ _ E) | exact I].
Qed.

Lemma orderly_bind {A B} (g : Gateway) (m : M A) (k : A -> M B) :
  orderly g m -> (forall a, orderly g (k a)) -> orderly g (bind m k).
Proof.
  intros Hm Hk t t' res. unfold bind. destruct (m t) as [t1 [e|a]] eqn:E.
  - intros [= <- <-]. destruct (Hm _ _ _ E) as (new & Hc & Hs).
    exists new. split; [exact Hc | exact (sequential_thrown _ _ _ _ Hs)].
  - intros E2. destruct (Hm _ _ _ E) as (new1 & Hc1 & Hs1).
    destruct (Hk a _ _ _ E2) as (new2 & Hc2 & Hs2).
    exists (new1 ++ new2). split.
    + now rewrite Hc2, Hc1, app_assoc.
    + apply (sequential_app _ _ _ _ a); [exact Hs1 | now rewrite <- Hc1].
Qed.

Lemma orderly_call (g : Gateway) (resource : string) (c : Call) :
  orderly g (stripe_call (Some g) resource c).
Proof.
  intros t t' res [= <- <-]. exists [c]. rewrite calls_of_app. split; [reflexivity|].
  simpl. destruct (g (calls_of t) c); [split; reflexivity | exact I].
Qed.

Lemma quiet_bind {A B} (m : M A) (k : A -> M B) :
  quiet m -> (forall a, quiet (k a)) -> quiet (bind m k).
Proof.
  intros Hm Hk t t' res. unfold bind. destruct (m t) as [t1 [e|a]] eqn:E.
  - intros [= <- <-]. exact (Hm _ _ _ E).
  - intros E2. rewrite (Hk a _ _ _ E2). exact (Hm _ _ _ E).
Qed.

Lemma quiet_ret {A} (a : A) : quiet (ret a).
Proof. intros t t' res [= <- <-]. reflexivity. Qed.

Lemma quiet_throw {A} (e : error) : quiet (@throw A e).
Proof. intros t t' res [= <- <-]. reflexivity. Qed.

Lemma quiet_respond (n : Z) (v : value) : quiet (respond n v).
Proof. apply quiet_ret. Qed.

Lemma quiet_console (l : Level) (text : string) (shown : list Shown) :
  quiet (console l text shown).
Proof.
  intros t t' res [= <- <-]. rewrite calls_of_app. simpl. apply app_nil_r.
Qed.

Lemma quiet_prop (v : value) (k : string) : quiet (prop v k).
Proof. destruct v; simpl; first [apply quiet_throw | apply quiet_ret]. Qed.

Lemma quiet_destructure (v : value) (what k : string) : quiet (destructure v what k).
Proof. destruct v; simpl; first [apply quiet_throw | apply quiet_ret]. Qed.

Lemma quiet_stripe_ready (stripe : Stripe) (resource : string) :
  quiet (stripe_ready stripe resource).
Proof. destruct stripe; simpl; first [apply quiet_throw | apply quiet_ret]. Qed.

Lemma quiet_uncalled (resource : string) (c : Call) : quiet (stripe_call None resource c).
Proof. apply quiet_throw. Qed.

Lemma quiet_if {A} (c : bool) (m1 m2 : M A) : quiet m1 -> quiet m2 -> quiet (if c then m1 else m2).
Proof. destruct c; auto. Qed.

Lemma quiet_try_catch {A} (m : M A) (h : error -> M A) :
  quiet m -> (forall e, quiet (h e)) -> quiet (try_catch m h).
Proof.
  intros Hm Hh t t' res. unfold try_catch. destruct (m t) as [t1 [e|a]] eqn:E.
  - intros E2. rewrite (Hh e _ _ _ E2). exact (Hm _ _ _ E).
  - intros [= <- <-]. exact (Hm _ _ _ E).
Qed.

Lemma quiet_mapM {A B} (f : A -> M B) (l : list A) :
  (forall x, quiet (f x)) -> quiet (mapM f l).
Proof.
  intros Hf. induction l as [|x l IH]; simpl; [apply quiet_ret|].
  apply quiet_bind; [apply Hf|]. intros y.
  apply quiet_bind; [exact IH|]. intros ys. apply quiet_ret.
Qed.

Lemma quiet_findM (f : value -> M bool) (l : list value) :
  (forall x, quiet (f x)) -> quiet (findM f l).
Proof.
  intros Hf. induction l as [|x l IH]; simpl; [apply quiet_ret|].
  apply quiet_bind; [apply Hf|]. intros b. destruct b; [apply quiet_ret | exact IH].
Qed.

Lemma quiet_not_a_function {A} (path what : string) (v : value) :
  quiet (@not_a_function A path what v).
Proof. destruct v; apply quiet_throw. Qed.

Lemma quiet_lift {A} (r : error + A) : quiet (lift r).
Proof. destruct r; [apply quiet_throw | apply quiet_ret]. Qed.

Lemma quiet_insert (compare : value -> value -> M float) (x : value) (l : list value) :
  (forall a b, quiet (compare a b)) -> quiet (insert compare x l).
Proof.
  intros Hc. induction l as [|y l IH]; simpl; [apply quiet_ret|].
  apply quiet_bind; [apply Hc|]. intros c.
  destruct (PrimFloat.ltb _ _); [|apply quiet_ret].
  apply quiet_bind; [exact IH|]. intros r. apply quiet_ret.
Qed.

Lemma quiet_sort_list (compare : value -> value -> M float) (l : list value) :
  (forall a b, quiet (compare a b)) -> quiet (sort_list compare l).
Proof.
  intros Hc. induction l as [|x l IH]; simpl; [apply quiet_ret|].
  apply quiet_bind; [exact IH|]. intros s. now apply quiet_insert.
Qed.

Lemma quiet_Array_map (path : string) (v : value) (f : value -> M value) :
  (forall x, quiet (f x)) -> quiet (Array_map path v f).
Proof.
  intros Hf. destruct v; simpl; try apply quiet_throw.
  apply quiet_bind; [now apply quiet_mapM|]. intros r. apply quiet_ret.
Qed.

Lemma quiet_Array_find (path : string) (v : value) (f : value -> M bool) :
  (forall x, quiet (f x)) -> quiet (Array_find path v f).
Proof.
  intros Hf. destruct v; simpl; try apply quiet_throw. now apply quiet_findM.
Qed.

Lemma quiet_Array_sort (path : string) (v : value) (compare : value -> value -> M float) :
  (forall a b, quiet (compare a b)) -> quiet (Array_sort path v compare).
Proof.
  intros Hc. destruct v; simpl; try apply quiet_throw.
  apply quiet_bind; [now apply quiet_sort_list|]. intros r. apply quiet_ret.
Qed.

Ltac quiet :=
  repeat first
    [ apply quiet_ret | apply quiet_throw | apply quiet_respond | apply quiet_console
    | apply quiet_prop | apply quiet_destructure | apply quiet_stripe_ready
    | apply quiet_uncalled | apply quiet_lift
    | apply quiet_if
    | apply quiet_bind; [|intros ?]
    | apply quiet_try_catch; [|intros ?]
    | apply quiet_Array_map; intros ?
    | apply quiet_Array_find; intros ?
    | apply quiet_Array_sort; intros ? ?
    | progress cbv zeta
    | progress unfold res_json
    | match goal with
      | |- quiet (match ?x with _ => _ end) => destruct x
      end ].

Lemma quiet_price_matches (product p : value) : quiet (Server.price_matches product p).
Proof. unfold Server.price_matches. quiet. Qed.

Lemma quiet_product_entry (tn : value -> float) (product price : value) :
  quiet (Server.product_entry tn product price).
Proof. unfold Server.product_entry. quiet. Qed.

Lemma quiet_compare_invoices (tn : value -> float) (ts : value -> error + string) (a b : value) :
  quiet (Server.compare_invoices tn ts a b).
Proof. unfold Server.compare_invoices. quiet. Qed.

Lemma orderly_if {A} (g : Gateway) (c : bool) (m1 m2 : M A) :
  orderly g m1 -> orderly g m2 -> orderly g (if c then m1 else m2).
Proof. destruct c; auto. Qed.

Ltac orderly :=
  repeat first
    [ apply orderly_call
    | apply quiet_orderly; solve [quiet]
    | apply orderly_if
    | apply orderly_bind; [|intros ?]
    | progress cbv zeta
    | match goal with
      | |- orderly _ (match ?x with _ => _ end) => destruct x
      end ].

Ltac catches :=
  intros ? ?; unfold bind, console, respond, ret; simpl;
  repeat match goal with |- context [if ?c then _ else _] => destruct c; simpl end;
  eexists; eexists; (split; [reflexivity|]);
  (split; [rewrite ?calls_of_app; simpl; rewrite ?app_nil_r; reflexivity | reflexivity]).

Ltac shape := eexists; eexists; (split; [reflexivity|]); (split; [orderly | catches]).

Lemma main_handlers_shape (tn : value -> float) (ts : value -> error + string)
  (g : Gateway) (env : Env)
  (route : Server.Route) (req : Request) :
  route <> Server.Webhook ->
  guarded_shape g route (Server.handle tn ts (Some g) env route req).
Proof.
  intros Hw. destruct route; simpl; try contradiction.
  - unfold Server.connection_token. shape.
  - unfold Server.register_reader. shape.
  - unfold Server.create_location. shape.
  - unfold Server.products. shape.
  - unfold Server.create_payment_intent. shape.
  - unfold Server.process_payment. shape.
  - unfold Server.simulate_payment. shape.
  - unfold Server.customers. shape.
  - unfold Server.invoices. shape.
  - unfold Server.invoices_pay. shape.
  - unfold Server.cancel_payment_intent. shape.
  - unfold Server.payment_intent_status. shape.
Qed.

Lemma sequential_failure {A} (g : Gateway) (b0 new before after : list Call) (c : Call)
  (e : error) (res : error + A) :
  sequential g b0 new res ->
  new = before ++ c :: after ->
  g (b0 ++ before) c = inl e ->
  after = [] /\ res = inl e.
Proof.
  revert b0 new. induction before as [|x before IH]; intros b0 new Hs -> Hg; simpl in *.
  - rewrite app_nil_r in Hg. rewrite Hg in Hs. exact Hs.
  - destruct (g b0 x) as [e'|v].
    + destruct Hs as [Hnil _]. destruct before; discriminate.
    + apply (IH (b0 ++ [x]) _ Hs eq_refl). now rewrite <- app_assoc.
Qed.

Lemma sequential_last_failed {A} (g : Gateway) (new : list Call) (e : error)
  (res : error + A) :
  sequential g [] new res -> failed_call g new = Some e -> res = inl e.
Proof.
  intros Hs Hf. unfold failed_call in Hf.
  destruct (rev new) as [|c before] eqn:Hrev; [discriminate|].
  destruct (g (rev before) c) as [e'|v] eqn:Hg; [|discriminate].
  injection Hf as ->.
  assert (Hnew : new = rev before ++ [c]).
  { rewrite <- (rev_involutive new), Hrev. reflexivity. }
  exact (proj2 (sequential_failure g [] new (rev before) [] c e res Hs Hnew Hg)).
Qed.

(** What a handler of the guarded shape does, run on a fresh request. *)
Lemma guarded_shape_run (g : Gateway) (route : Server.Route) (handler : M Response) :
  guarded_shape g route handler ->
  exists t r res,
    run handler = (t, inr r)
    /\ sequential g [] (calls_of t) res
    /\ match res with
       | inl e => status r = error_status route e
       | inr r' => r' = r
       end.
Proof.
  intros (body & h & -> & Hbody & Hcatch). unfold run, try_catch.
  destruct (body []) as [t1 [e|r]] eqn:E;
    destruct (Hbody _ _ _ E) as (new & Hcalls & Hseq); simpl in Hcalls.
  - destruct (Hcatch e t1) as (t' & r & -> & Hsame & Hstatus).
    exists t', r, (inl e). split; [reflexivity|]. rewrite Hsame, Hcalls.
    split; [exact Hseq | exact Hstatus].
  - exists t1, r, (inr r). split; [reflexivity|]. rewrite Hcalls.
    split; [exact Hseq | reflexivity].
Qed.

Lemma webhook_run (ts : value -> error + string) (g : Gateway) (env : Env) (req : Request) :
  exists t r res,
    run (Server.webhook ts (Some g) env req) = (t, inr r)
    /\ sequential g [] (calls_of t) res
    /\ match res with
       | inl e => status r = 400
       | inr r' => r' = r
       end.
Proof.
  unfold run, Server.webhook, Server.webhook_verify, try_catch, bind, stripe_call.
  destruct (Server.webhook_secret env) as [secret|]; simpl.
  - destruct (g [] (WebhooksConstructEvent _ _ _)) as [e|event] eqn:Hg; simpl.
    + eexists; eexists; exists (inl e). split; [reflexivity|].
      simpl. rewrite Hg. repeat split.
    + destruct (webhook_dispatch_answers ts event
                  [Called (WebhooksConstructEvent (body req)
                             (get (headers req) "stripe-signature") secret)])
        as (t' & r & Hd & _).
      assert (Hq : quiet (Server.webhook_dispatch ts event))
        by (unfold Server.webhook_dispatch; quiet).
      rewrite Hd. exists t', r, (inr r). split; [reflexivity|].
      rewrite (Hq _ _ _ Hd). simpl. rewrite Hg. split; [exact I | reflexivity].
  - eexists; eexists; eexists (inr _). split; [reflexivity|]. simpl. split; reflexivity.
Qed.

Lemma main_run (tn : value -> float) (ts : value -> error + string)
  (g : Gateway) (env : Env) (route : Server.Route)
  (req : Request) :
  exists t r res,
    run (Server.handle tn ts (Some g) env route req) = (t, inr r)
    /\ sequential g [] (calls_of t) res
    /\ match res with
       | inl e => status r = error_status route e
       | inr r' => r' = r
       end.
Proof.
  assert (Hw : route = Server.Webhook \/ route <> Server.Webhook)
    by (destruct route; ((left; reflexivity) || (right; discriminate))).
  destruct Hw as [->|Hw].
  - exact (webhook_run ts g env req).
  - apply guarded_shape_run. now apply main_handlers_shape.
Qed.

(** When the last call a handler issued was refused by the gateway with
    an error [e], the response has the status the route's [catch] gives
    to [e]. *)
Theorem gateway_failure_status (tn : value -> float) (ts : value -> error + string)
  (g : Gateway) (env : Env)
  (route : Server.Route) (req : Request) (e : error) :
  let o := run (Server.handle tn ts (Some g) env route req) in
  failed_call g (issued o) = Some e ->
  exists r, answered o = Some r /\ status r = error_status route e.
Proof.
  cbv zeta. intros Hf.
  destruct (main_run tn ts g env route req) as (t & r & res & Hrun & Hseq & Hres).
  rewrite Hrun in *. unfold issued in Hf. simpl in Hf.
  rewrite (sequential_last_failed g _ e res Hseq Hf) in Hres.
  exists r. split; [reflexivity|].
  destruct route; exact Hres.
Qed.

(** A handler stops at the first call the gateway refuses: no call is
    issued after it. *)
Theorem no_call_after_failure (tn : value -> float) (ts : value -> error + string)
  (g : Gateway) (env : Env)
  (route : Server.Route) (req : Request) (before after : list Call) (c : Call) (e : error) :
  issued (run (Server.handle tn ts (Some g) env route req)) = before ++ c :: after ->
  g before c = inl e ->
  after = [].
Proof.
  intros Hcalls Hg.
  destruct (main_run tn ts g env route req) as (t & r & res & Hrun & Hseq & _).
  rewrite Hrun in Hcalls. unfold issued in Hcalls. simpl in Hcalls.
  exact (proj1 (sequential_failure g [] _ before after c e res Hseq Hcalls Hg)).
Qed.

Lemma quiet_within {A} (p : Call -> bool) (m : M A) : quiet m -> within p m.
Proof.
  intros H t t' res E. exists []. rewrite app_nil_r. split; [exact (H _ _ _ E) | reflexivity].
Qed.

Lemma within_bind {A B} (p : Call -> bool) (m : M A) (k : A -> M B) :
  within p m -> (forall a, within p (k a)) -> within p (bind m k).
Proof.
  intros Hm Hk t t' res. unfold bind. destruct (m t) as [t1 [e|a]] eqn:E.
  - intros [= <- <-]. exact (Hm _ _ _ E).
  - intros E2. destruct (Hm _ _ _ E) as (new1 & Hc1 & Hp1).
    destruct (Hk a _ _ _ E2) as (new2 & Hc2 & Hp2).
    exists (new1 ++ new2). split.
    + now rewrite Hc2, Hc1, app_assoc.
    + rewrite forallb_app, Hp1, Hp2. reflexivity.
Qed.

Lemma within_call (p : Call -> bool) (g : Gateway) (resource : string) (c : Call) :
  p c = true -> within p (stripe_call (Some g) resource c).
Proof.
  intros Hp t t' res [= <- <-]. exists [c]. rewrite calls_of_app.
  split; [reflexivity|]. simpl. now rewrite Hp.
Qed.

Lemma within_if {A} (p : Call -> bool) (c : bool) (m1 m2 : M A) :
  within p m1 -> within p m2 -> within p (if c then m1 else m2).
Proof. destruct c; auto. Qed.

Lemma within_try_catch {A} (p : Call -> bool) (m : M A) (h : error -> M A) :
  within p m -> (forall e, quiet (h e)) -> within p (try_catch m h).
Proof.
  intros Hm Hh t t' res. unfold try_catch. destruct (m t) as [t1 [e|a]] eqn:E.
  - intros E2. destruct (Hm _ _ _ E) as (new & Hc & Hp).
    exists new. split; [|exact Hp]. now rewrite (Hh e _ _ _ E2).
  - intros [= <- <-]. exact (Hm _ _ _ E).
Qed.

Ltac within :=
  repeat first
    [ apply within_call; reflexivity
    | apply quiet_within; solve [quiet]
    | apply within_if
    | apply within_try_catch; [|intros ?; solve [quiet]]
    | apply within_bind; [|intros ?]
    | progress cbv zeta
    | match goal with
      | |- within _ (match ?x with _ => _ end) => destruct x
      end ].

(** A route issues only the calls that belong to it: the listing routes
    and the status route never create or cancel anything, and only the
    cancel route cancels. *)
Theorem routes_issue_their_own_calls (tn : value -> float) (ts : value -> error + string)
  (stripe : Stripe) (env : Env)
  (route : Server.Route) (req : Request) :
  forallb (own_call route) (issued (run (Server.handle tn ts stripe env route req))) = true.
Proof.
  enough (H : within (own_call route) (Server.handle tn ts stripe env route req)).
  { unfold run, issued.
    destruct (Server.handle tn ts stripe env route req []) as [t res] eqn:E.
    destruct (H _ _ _ E) as (new & Hc & Hp). simpl in *. now rewrite Hc. }
  destruct stripe as [g|].
  - destruct route; simpl.
    + unfold Server.connection_token. within.
    + unfold Server.register_reader. within.
    + unfold Server.create_location. within.
    + unfold Server.products. within.
    + unfold Server.create_payment_intent. within.
    + unfold Server.process_payment. within.
    + unfold Server.simulate_payment. within.
    + unfold Server.webhook, Server.webhook_verify, Server.webhook_dispatch. within.
    + unfold Server.customers. within.
    + unfold Server.invoices. within.
    + unfold Server.invoices_pay. within.
    + unfold Server.cancel_payment_intent. within.
    + unfold Server.payment_intent_status. within.
  - apply quiet_within.
    destruct route; simpl;
      [ unfold Server.connection_token | unfold Server.register_reader
      | unfold Server.create_location | unfold Server.products
      | unfold Server.create_payment_intent | unfold Server.process_payment
      | unfold Server.simulate_payment
      | unfold Server.webhook, Server.webhook_verify, Server.webhook_dispatch
      | unfold Server.customers | unfold Server.invoices | unfold Server.invoices_pay
      | unfold Server.cancel_payment_intent | unfold Server.payment_intent_status ];
      quiet.
Qed.

(** A request that lacks a required field is answered with 400 before
    anything is sent to the gateway or written to the console. *)
Theorem incomplete_request_is_refused_unsent (tn : value -> float) (ts : value -> error + string)
  (g : Gateway) (env : Env)
  (route : Server.Route) (req : Request) :
  nullish (body req) = false ->
  nullish (params req) = false ->
  incomplete tn route req = true ->
  exists r, run (Server.handle tn ts (Some g) env route req) = ([], inr r) /\ status r = 400.
Proof.
  intros Hb Hp Hi. destruct route; simpl in Hi; try discriminate; simpl.
  - unfold Server.register_reader, Server.uninitialized.
    rewrite (prop_ok _ _ Hb), bind_ret.
    destruct (js_not (get (body req) "registration_code")); simpl in Hi.
    + eexists. split; reflexivity.
    + rewrite (prop_ok _ _ Hb), bind_ret, Hi. eexists. split; reflexivity.
  - unfold Server.create_location, Server.uninitialized.
    rewrite (destructure_ok _ _ _ Hb), bind_ret.
    unfold some_field_falsy, Server.location_fields, existsb in Hi.
    rewrite orb_false_r, !orb_assoc in Hi. rewrite Hi. eexists. split; reflexivity.
  - unfold Server.create_payment_intent, Server.uninitialized.
    rewrite (destructure_ok _ _ _ Hb), bind_ret.
    apply andb_true_iff in Hi. destruct Hi as [Hm Hi]. apply negb_true_iff in Hm.
    rewrite (destructure_ok _ _ _ Hm), bind_ret.
    destruct (js_not _ || js_not _); simpl in Hi; [eexists; split; reflexivity|].
    rewrite Hi. eexists. split; reflexivity.
  - unfold Server.process_payment, Server.uninitialized.
    rewrite (destructure_ok _ _ _ Hb), bind_ret.
    destruct (js_not (get (body req) "readerId")); simpl in Hi.
    + eexists. split; reflexivity.
    + rewrite Hi. eexists. split; reflexivity.
  - unfold Server.simulate_payment, Server.uninitialized.
    rewrite (destructure_ok _ _ _ Hb), bind_ret, Hi. eexists. split; reflexivity.
  - unfold Server.invoices_pay, Server.uninitialized.
    rewrite (prop_ok _ _ Hp), bind_ret, Hi. eexists. split; reflexivity.
  - unfold Server.cancel_payment_intent, Server.uninitialized.
    rewrite (destructure_ok _ _ _ Hb), bind_ret, Hi. eexists. split; reflexivity.
Qed.

(** Paying an invoice: the invoice is retrieved, then the intent is
    created from its amount due, currency and customer, then the intent is
    attached to the invoice.  When attaching fails the intent exists
    already and the answer is the error of the attachment. *)
Theorem invoice_payment_chain (g : Gateway) (req : Request) (invoice intent : value) :
  let id := get (params req) "id" in
  let retrieve := InvoicesRetrieve id in
  let create := PaymentIntentsCreate (invoice_intent_params invoice) in
  let attach := InvoicesAttachPayment id (attach_params intent) in
  let o := run (Server.invoices_pay (Some g) req) in
  truthy id = true ->
  g [] retrieve = inr invoice ->
  truthy invoice = true ->
  g [retrieve] create = inr intent ->
  nullish intent = false ->
  issued o = [retrieve; create; attach]
  /\ match g [retrieve; create] attach with
     | inr _ =>
         answered o = Some (mkResponse 200 (Obj [("paymentIntentId", get intent "id")]))
     | inl e =>
         exists r, answered o = Some r
                   /\ status r = (if code_is e "resource_missing" then 404
                                  else if code_is e "invalid_request_error" then 400
                                  else 500)
     end.
Proof.
  cbv zeta. intros Hid Hg1 Hinv Hg2 Hint.
  assert (Hp : nullish (params req) = false).
  { destruct (params req); simpl in Hid; try discriminate; reflexivity. }
  unfold run, issued, answered, Server.invoices_pay, Server.uninitialized, try_catch.
  rewrite (prop_ok _ _ Hp), bind_ret. unfold js_not. rewrite Hid. cbn [negb].
  rewrite bind_call. cbn [calls_of app]. rewrite Hg1, Hinv. cbn [negb].
  rewrite bind_call. cbn [calls_of app]. fold (invoice_intent_params invoice). rewrite Hg2.
  rewrite (prop_ok _ _ Hint), bind_ret. rewrite bind_call. cbn [calls_of app].
  fold (attach_params intent).
  destruct (g [_; _] (InvoicesAttachPayment _ _)) as [e|attached]; simpl.
  - unfold bind, console. simpl.
    destruct (code_is e "resource_missing"); [split; [|eexists; split]; reflexivity|].
    destruct (code_is e "invalid_request_error"); (split; [|eexists; split]; reflexivity).
  - split; reflexivity.
Qed.

(** When the gateway resolves the retrieval with a falsy invoice, the
    handler answers 404 and creates no intent. *)
Theorem missing_invoice_creates_nothing (g : Gateway) (req : Request) (invoice : value) :
  let id := get (params req) "id" in
  truthy id = true ->
  g [] (InvoicesRetrieve id) = inr invoice ->
  truthy invoice = false ->
  run (Server.invoices_pay (Some g) req)
  = ([Called (InvoicesRetrieve id)],
     inr (mkResponse 404 (Obj [("error", Str "Invoice not found")]))).
Proof.
  cbv zeta. intros Hid Hg Hinv.
  assert (Hp : nullish (params req) = false).
  { destruct (params req); simpl in Hid; try discriminate; reflexivity. }
  unfold run, Server.invoices_pay, Server.uninitialized, try_catch.
  rewrite (prop_ok _ _ Hp), bind_ret. unfold js_not. rewrite Hid. cbn [negb].
  rewrite bind_call. cbn [calls_of app]. rewrite Hg, Hinv. reflexivity.
Qed.

(** Without a signing secret the webhook answers 500 and verifies
    nothing, whether the client is initialized or not. *)
Theorem webhook_without_secret (ts : value -> error + string)
  (stripe : Stripe) (env : Env) (req : Request) :
  Server.webhook_secret env = None ->
  run (Server.webhook ts stripe env req)
  = ([Console Error "STRIPE_WEBHOOK_SECRET is not set" []],
     inr (mkResponse 500 (Obj [("error", Str "Webhook secret not configured")]))).
Proof.
  intros Hs. unfold run, Server.webhook, Server.webhook_verify, try_catch, bind.
  rewrite Hs. reflexivity.
Qed.

(** The handler alone, on a request whose verification succeeds: the
    event is acknowledged with 200 whatever its type; the switch writes
    one line for it, the default branch the type inside one string, and
    no call follows the verification. *)
Theorem verified_event_is_acknowledged (ts : value -> error + string) (g : Gateway)
  (env : Env) (req : Request) (secret : string) (event : value) (text : string) :
  let verify :=
    WebhooksConstructEvent (body req) (get (headers req) "stripe-signature") secret in
  Server.webhook_secret env = Some secret ->
  g [] verify = inr event ->
  nullish event = false ->
  ToString ts (get event "type") = inr text ->
  run (Server.webhook ts (Some g) env req)
  = ([Called verify; dispatch_log (get event "type") text],
     inr (mkResponse 200 (Obj [("received", Bool true)]))).
Proof.
  cbv zeta. intros Hs Hg Hn Htext.
  unfold run, Server.webhook, Server.webhook_verify, try_catch, bind, stripe_call.
  rewrite Hs. simpl. rewrite Hg. simpl.
  unfold Server.webhook_dispatch, try_catch, bind. rewrite (prop_ok _ _ Hn). simpl.
  unfold dispatch_log.
  destruct (strict_eq _ (Str "payment_intent.succeeded")); [reflexivity|].
  destruct (strict_eq _ (Str "payment_intent.payment_failed")); [reflexivity|].
  rewrite Htext. reflexivity.
Qed.

(** The status route answers either with the retrieved status or with
    one fixed 500 body that says nothing of the failure, and it never
    writes to the console. *)
Theorem payment_intent_status_answers (stripe : Stripe) (req : Request) :
  let o := run (Server.payment_intent_status stripe req) in
  existsb (fun e => match e with Console _ _ _ => true | Called _ => false end) (fst o)
  = false
  /\ (answered o = Some status_failure
      \/ exists g intent,
           stripe = Some g
           /\ g [] (PaymentIntentsRetrieve (get (query req) "id")) = inr intent
           /\ answered o = Some (mkResponse 200 (Obj [("status", get intent "status")]))).
Proof.
  cbv zeta. unfold run, answered, Server.payment_intent_status, try_catch.
  destruct (nullish (query req)) eqn:Hq.
  { destruct (destructure_nullish _ "req.query" "id" Hq) as (e & -> & _).
    rewrite bind_throw. simpl. split; [reflexivity | left; reflexivity]. }
  rewrite (destructure_ok _ _ _ Hq), bind_ret. cbv zeta.
  destruct stripe as [g|]; [|simpl; split; [reflexivity | left; reflexivity]].
  rewrite bind_call. cbn [calls_of app].
  destruct (g [] _) as [e|intent] eqn:Hg; [simpl; split; [reflexivity | left; reflexivity]|].
  destruct (nullish intent) eqn:Hi.
  { destruct (prop_nullish _ "status" Hi) as (e & -> & _).
    rewrite bind_throw. simpl. split; [reflexivity | left; reflexivity]. }
  rewrite (prop_ok _ _ Hi), bind_ret. simpl. split; [reflexivity|].
  right. exists g, intent. repeat split. exact Hg.
Qed.

Lemma insert_of_rank (r : Z) (x : value) (l : list value) :
  of_rank r (insert_by_rank x l) = of_rank r (x :: l).
Proof.
  unfold of_rank. induction l as [|y l IH]; simpl; [reflexivity|].
  destruct (Z.ltb_spec (invoice_rank x) (invoice_rank y)) as [Hlt|Hge]; [|reflexivity].
  simpl. rewrite IH. simpl.
  destruct (Z.eqb_spec (invoice_rank x) r) as [Hx|Hx]; [|reflexivity].
  destruct (Z.eqb_spec (invoice_rank y) r) as [Hy|Hy]; [lia | reflexivity].
Qed.

Lemma sort_of_rank (r : Z) (l : list value) :
  of_rank r (sort_by_rank l) = of_rank r l.
Proof.
  induction l as [|x l IH]; simpl; [reflexivity|].
  rewrite insert_of_rank. unfold of_rank in *. simpl. now rewrite IH.
Qed.

(** A list of invoices whose statuses are strings that name no member of
    [Object.prototype] is answered sorted by the effective rank, highest
    first, and invoices of equal rank (open ones and those of unknown
    status among them) keep the order the gateway gave them. *)
Theorem invoices_sort_is_stable (tn : value -> float) (ts : value -> error + string)
  (g : Gateway) (req : Request) (invoices : value) (items : list value) :
  g [] (InvoicesList invoices_params) = inr invoices ->
  get invoices "data" = Arr items ->
  invoice_list items ->
  exists sortedInvoices,
    answered (run (Server.invoices tn ts (Some g) req))
    = Some (mkResponse 200 (Arr sortedInvoices))
    /\ Permutation items sortedInvoices
    /\ descending sortedInvoices
    /\ forall r, of_rank r sortedInvoices = of_rank r items.
Proof.
  intros Hg Hdata Hitems.
  assert (Hn : nullish invoices = false)
    by (destruct invoices; try discriminate; reflexivity).
  exists (sort_by_rank items). split; [|split; [apply sort_permutation|split]].
  - unfold run, answered, Server.invoices, Server.uninitialized, try_catch.
    fold invoices_params.
    rewrite bind_call. cbn [calls_of app]. rewrite Hg.
    rewrite (prop_ok _ _ Hn), bind_ret, Hdata. unfold Array_sort.
    destruct (objects_defined _ (invoice_list_objects _ Hitems)) as [-> ->].
    rewrite (sort_list_ret tn ts _ Hitems), bind_ret, app_nil_r. reflexivity.
  - apply sort_descending.
  - intros r. apply sort_of_rank.
Qed.

(** A status that names a member of [Object.prototype] has no rank: the
    comparator finds the inherited member, a function, and returns NaN,
    so the invoice stays where it is, before a draft that any number would
    have sent behind it. *)
Lemma inherited_member_is_no_rank (tn : value -> float) (ts : value -> error + string)
  (req : Request) :
  answered
    (run (Server.invoices tn ts
            (Some (fun _ _ =>
                     inr (Obj [("data", Arr [invoice "in_1" "draft";
                                             invoice "in_2" "constructor"])])))
            req))
  = Some (mkResponse 200 (Arr [invoice "in_1" "draft"; invoice "in_2" "constructor"]))
  /\ is_invoice (invoice "in_2" "constructor") = false.
Proof. split; reflexivity. Qed.

Ltac serverless_unfold :=
  unfold Serverless.hello, Serverless.connection_token, Serverless.register_reader,
    Serverless.create_location, Serverless.products, Serverless.create_payment_intent,
    Serverless.process_payment, Serverless.simulate_payment, Serverless.customers,
    Serverless.invoices, Serverless.invoices_pay.

(** In the serverless build too a route issues only its own calls: the
    intent is created without a customer, and paying an invoice creates an
    intent without attaching it. *)
Theorem serverless_routes_issue_their_own_calls (tn : value -> float) (stripe : Stripe)
  (route : Serverless.Route) (req : Request) :
  let calls := issued (run (Serverless.handle tn stripe route req)) in
  forallb (serverless_call route) calls = true.
Proof.
  cbv zeta.
  enough (H : within (serverless_call route) (Serverless.handle tn stripe route req)).
  { unfold run, issued.
    destruct (Serverless.handle tn stripe route req []) as [t res] eqn:E.
    destruct (H _ _ _ E) as (new & Hc & Hp). simpl in *. now rewrite Hc. }
  destruct stripe as [g|].
  - destruct route; simpl; serverless_unfold; within.
  - apply quiet_within. destruct route; simpl; serverless_unfold; quiet.
Qed.

Lemma serverless_orderly (tn : value -> float) (g : Gateway) (route : Serverless.Route)
  (req : Request) :
  catching route = false -> orderly g (Serverless.handle tn (Some g) route req).
Proof.
  intros Hc. destruct route; try discriminate; simpl; serverless_unfold; orderly.
Qed.

(** In the serverless build an error of the gateway is turned into a
    500 by the two routes that have a [try]; on every other route it
    leaves the handler as it is and no response is sent. *)
Theorem serverless_gateway_failure (tn : value -> float) (g : Gateway)
  (route : Serverless.Route) (req : Request) (e : error) :
  let o := run (Serverless.handle tn (Some g) route req) in
  failed_call g (issued o) = Some e ->
  if catching route
  then exists r, answered o = Some r /\ status r = 500
  else snd o = inl e.
Proof.
  cbv zeta. intros Hf. destruct (catching route) eqn:Hc.
  - revert Hf. unfold run, issued, answered.
    destruct route; try discriminate; simpl; serverless_unfold.
    + destruct (nullish (body req)) eqn:Hb.
      { destruct (destructure_nullish _ "req.body" "amount" Hb) as (e' & -> & _).
        rewrite bind_throw. discriminate. }
      rewrite (destructure_ok _ _ _ Hb), bind_ret. cbv zeta.
      destruct (_ || _); [discriminate|].
      unfold try_catch. rewrite bind_call. cbn [calls_of app].
      destruct (g [] _) as [e'|intent] eqn:Hg; simpl.
      * intros _. eexists. split; reflexivity.
      * destruct (nullish intent) eqn:Hi.
        -- destruct (prop_nullish _ "id" Hi) as (e' & -> & _). simpl.
           unfold failed_call. simpl. rewrite Hg. discriminate.
        -- rewrite (prop_ok _ "id" Hi), (prop_ok _ "client_secret" Hi). simpl.
           unfold failed_call. simpl. rewrite Hg. discriminate.
    + destruct (nullish (body req)) eqn:Hb.
      { destruct (destructure_nullish _ "req.body" "readerId" Hb) as (e' & -> & _).
        rewrite bind_throw. discriminate. }
      rewrite (destructure_ok _ _ _ Hb), bind_ret. cbv zeta.
      unfold try_catch. rewrite bind_call. cbn [calls_of app].
      destruct (g [] _) as [e'|reader] eqn:Hg; simpl.
      * intros _. eexists. split; reflexivity.
      * unfold failed_call. simpl. rewrite Hg. discriminate.
  - unfold run, issued in *.
    destruct (Serverless.handle tn (Some g) route req []) as [t res] eqn:E.
    destruct (serverless_orderly tn g route req Hc _ _ _ E) as (new & Hcalls & Hseq).
    simpl in *. rewrite Hcalls in Hf. exact (sequential_last_failed g new e res Hseq Hf).
Qed.

(** With the client undefined, the routes of the serverless build that
    call it directly throw a [TypeError] before any call and send no
    response. *)
Theorem serverless_uninitialized_is_unanswered (tn : value -> float)
  (route : Serverless.Route) (req : Request) :
  let o := run (Serverless.handle tn None route req) in
  bare route = true ->
  issued o = [] /\ exists e, snd o = inl e /\ code e = None.
Proof.
  cbv zeta. intros Hbare. split.
  - assert (H : quiet (Serverless.handle tn None route req))
      by (destruct route; simpl; serverless_unfold; quiet).
    unfold run, issued.
    destruct (Serverless.handle tn None route req []) as [t res] eqn:E.
    exact (H _ _ _ E).
  - unfold run. destruct route; try discriminate; simpl; serverless_unfold;
      unfold bind, stripe_call, stripe_ready, console; simpl;
      try (eexists; split; reflexivity).
    destruct (nullish (body req)) eqn:Hb.
    + destruct (destructure_nullish _ "req.body" "reader_id" Hb) as (e & -> & He). simpl.
      exists e. split; [reflexivity | exact He].
    + rewrite (destructure_ok _ _ _ Hb). simpl. eexists. split; reflexivity.
Qed.

(** The serverless create-location tests the fields before it touches
    the client: a missing field is a 400 even when the client is
    undefined. *)
Theorem serverless_location_checked_first (stripe : Stripe) (req : Request) :
  nullish (body req) = false ->
  some_field_falsy (body req) = true ->
  run (Serverless.create_location stripe req)
  = ([], inr (mkResponse 400 (Obj [("error", Str "Missing required address fields")]))).
Proof.
  intros Hb Hf. unfold run, Serverless.create_location.
  rewrite (prop_ok _ _ Hb), bind_ret. cbv zeta.
  unfold some_field_falsy, Server.location_fields, existsb in Hf.
  rewrite orb_false_r, !orb_assoc in Hf. rewrite Hf. reflexivity.
Qed.

Lemma init_without_key (key : option string) (require_stripe : string -> error + Gateway) :
  usable key = None ->
  run (init key require_stripe)
  = ([Console Error "Stripe init failed:" [ShownValue (Str "STRIPE_SECRET_KEY is not set")]],
     inr None).
Proof.
  unfold usable, run, init, try_catch, bind, console.
  destruct key as [k|]; [|reflexivity].
  destruct (String.eqb k ""); [reflexivity | discriminate].
Qed.

(** Started without a secret key, the server comes up with the client
    undefined, having sent nothing, and every guarded route then answers
    with the fixed "not initialized" response. *)
Theorem start_without_key_disables_guarded_routes (key : option string)
  (require_stripe : string -> error + Gateway)
  (tn : value -> float) (ts : value -> error + string) (env : Env)
  (route : Server.Route) (req : Request) :
  usable key = None ->
  guarded route = true ->
  exists log stripe,
    run (init key require_stripe) = (log, inr stripe)
    /\ calls_of log = []
    /\ run (Server.handle tn ts stripe env route req) = ([], inr not_initialized).
Proof.
  intros Hk Hr. eexists. exists None. rewrite (init_without_key _ _ Hk).
  split; [reflexivity|]. split; [reflexivity|].
  destruct route; try discriminate; reflexivity.
Qed.

(** Start-up never throws.  The client is defined exactly when the key is
    usable and the library returned a client; otherwise one line on the
    console gives the reason. *)
Theorem start_never_throws (key : option string)
  (require_stripe : string -> error + Gateway) :
  exists log stripe,
    run (init key require_stripe) = (log, inr stripe)
    /\ match stripe with
       | Some client =>
           log = [] /\ exists k, usable key = Some k /\ require_stripe k = inr client
       | None =>
           exists reason,
             log = [Console Error "Stripe init failed:" [ShownValue (Str reason)]]
             /\ match usable key with
                | None => reason = "STRIPE_SECRET_KEY is not set"
                | Some k => exists err, require_stripe k = inl err /\ reason = message err
                end
       end.
Proof.
  unfold usable, run, init, try_catch, bind, console.
  destruct key as [k|]; simpl.
  - destruct (String.eqb k "") eqn:Hk; simpl.
    + eexists. exists None. split; [reflexivity|]. eexists. split; reflexivity.
    + destruct (require_stripe k) as [err|client] eqn:Hreq; simpl.
      * eexists. exists None. split; [reflexivity|]. eexists. split; [reflexivity|].
        exists err. split; reflexivity.
      * eexists. exists (Some client). split; [reflexivity|]. split; [reflexivity|].
        exists k. split; [reflexivity | exact Hreq].
  - eexists. exists None. split; [reflexivity|]. eexists. split; reflexivity.
Qed.

(** On the older server a body that does not parse as JSON is replaced
    by [{}], so create-payment-intent and create-location answer 400
    without a call. *)
Theorem legacy_unparseable_body (JSON_parse : string -> error + value)
  (tn : value -> float) (stripe : Stripe) (chunks : list string) (e : error) :
  let req := post (Legacy.parse_body JSON_parse chunks) in
  JSON_parse (fold_left String.append chunks "") = inl e ->
  body req = Obj []
  /\ answered (run (Legacy.create_payment_intent tn stripe req))
     = Some (mkResponse 400 (Obj [("error", Str "Invalid amount provided.")]))
  /\ issued (run (Legacy.create_payment_intent tn stripe req)) = []
  /\ run (Legacy.create_location stripe req)
     = ([], inr (mkResponse 400 (Obj [("error", Str "Missing required address fields")]))).
Proof.
  cbv zeta. intros Hp. unfold post, Legacy.parse_body. rewrite Hp. simpl.
  repeat split.
Qed.

(** On the older server the body [null] parses: create-payment-intent
    and create-location then throw outside any [try] and send no
    response. *)
Theorem legacy_null_body (JSON_parse : string -> error + value)
  (tn : value -> float) (stripe : Stripe) (chunks : list string) :
  let req := post (Legacy.parse_body JSON_parse chunks) in
  JSON_parse (fold_left String.append chunks "") = inr Null ->
  (exists e, run (Legacy.create_payment_intent tn stripe req) = ([], inl e) /\ code e = None)
  /\ (exists e, run (Legacy.create_location stripe req) = ([], inl e) /\ code e = None).
Proof.
  cbv zeta. intros Hp. unfold post, Legacy.parse_body. rewrite Hp. simpl.
  split; eexists; split; reflexivity.
Qed.

(** The three shapes of a run of the main create-payment-intent handler:
    no call and no success; the customer call alone, refused; or the
    customer call answered and then the intent call, which carries the
    rounded amount, the customer's id and the metadata with the email as
    name.  An intent is never created without a customer. *)
Theorem payment_intent_call_shapes (tn : value -> float) (stripe : Stripe) (req : Request) :
  let o := run (Server.create_payment_intent tn stripe req) in
  let b := body req in
  let m := get b "metadata" in
  let cp := Obj [("email", get m "email"); ("name", get m "name")] in
  (issued o = [] /\ (forall r, answered o = Some r -> status r <> 200))
  \/ exists g, stripe = Some g /\ passes_validation tn b = true /\
       ((exists e, g [] (CustomersCreate cp) = inl e /\ issued o = [CustomersCreate cp]
                   /\ (forall r, answered o = Some r -> status r <> 200))
        \/ exists customer ip,
             g [] (CustomersCreate cp) = inr customer
             /\ issued o = [CustomersCreate cp; PaymentIntentsCreate ip]
             /\ get ip "amount"
                = Num (Math_round (PrimFloat.mul (ToNumber tn (get b "amount")) 100%float))
             /\ get ip "customer" = opt_prop customer "id"
             /\ get ip "metadata" = Obj (set "name" (get m "email") (spread m))).
Proof. exact (create_payment_intent_calls tn stripe req). Qed.

(** ** Instances *)

Lemma infinite_amount_is_left_to_the_gateway_witness :
  refusable PrimFloat.infinity = true
  /\ run (Server.create_payment_intent numbers_only (Some checking)
            (post (Obj [("amount", Num PrimFloat.infinity);
                        ("metadata", mistyped_metadata)])))
     = ([Called mistyped_customer;
         Console Error "Error creating payment intent:"
           [ShownError (email_invalid "ann.example.com")]],
        inr (mkResponse 500
               (Obj [("error", Str "Failed to create payment intent");
                     ("details", Str "Invalid email address: ann.example.com")])))
  /\ run (Serverless.create_payment_intent numbers_only (Some checking)
            (post (Obj [("amount", Num PrimFloat.infinity);
                        ("metadata", mistyped_metadata)])))
     = ([], inr (mkResponse 400 (Obj [("error", Str "Invalid amount provided.")]))).
Proof.
  apply (infinite_amount_is_left_to_the_gateway numbers_only checking mistyped_metadata
           (email_invalid "ann.example.com"));
    reflexivity.
Defined.

Lemma start_without_key_disables_guarded_routes_witness :
  exists log stripe,
    run (init None (fun _ => inr accepting)) = (log, inr stripe)
    /\ calls_of log = []
    /\ run (Server.handle numbers_only strings_only
          stripe configured_env Server.Customers status_request)
       = ([], inr not_initialized).
Proof.
  apply (start_without_key_disables_guarded_routes None (fun _ => inr accepting)
           numbers_only strings_only configured_env Server.Customers status_request);
    reflexivity.
Defined.

Lemma gateway_failure_status_witness :
  exists r,
    answered (run (Server.handle numbers_only strings_only
          (Some offline_reader_gateway) configured_env
                     Server.ProcessPayment process_request)) = Some r
    /\ status r = 503.
Proof.
  apply (gateway_failure_status numbers_only strings_only offline_reader_gateway configured_env
           Server.ProcessPayment process_request reader_offline).
  reflexivity.
Defined.

Lemma no_call_after_failure_witness :
  issued (run (Server.handle numbers_only strings_only
        (Some gateway_with_canceled_intent) configured_env
                 Server.CancelPaymentIntent cancel_request))
  = [PaymentIntentsRetrieve (Str "pi_1"); ReadersCancelAction (Str "tmr_1")]
    ++ PaymentIntentsCancel (Str "pi_1") :: []
  /\ @nil Call = [].
Proof.
  split; [reflexivity|].
  apply (no_call_after_failure numbers_only strings_only gateway_with_canceled_intent configured_env
           Server.CancelPaymentIntent cancel_request
           [PaymentIntentsRetrieve (Str "pi_1"); ReadersCancelAction (Str "tmr_1")] []
           (PaymentIntentsCancel (Str "pi_1")) cannot_cancel);
    reflexivity.
Defined.

Lemma incomplete_request_is_refused_unsent_witness :
  exists r,
    run (Server.handle numbers_only strings_only
          (Some accepting) configured_env Server.ProcessPayment
           request_without_intent) = ([], inr r)
    /\ status r = 400.
Proof.
  apply (incomplete_request_is_refused_unsent numbers_only strings_only accepting configured_env
           Server.ProcessPayment request_without_intent);
    reflexivity.
Defined.

Lemma main_rejects_nonpositive_and_nan_witness :
  exists r,
    run (Server.create_payment_intent numbers_only (Some accepting) negative_amount_request)
    = ([], inr r)
    /\ status r = 400.
Proof.
  apply (main_rejects_nonpositive_and_nan numbers_only accepting negative_amount_request
           (-5)%float); try reflexivity.
  left. reflexivity.
Defined.

Lemma main_forwards_rounded_amount_witness :
  get paying_intent_params "amount" = Num 1250%float.
Proof.
  apply (main_forwards_rounded_amount numbers_only (Some accepting) paying_request
           paying_intent_params).
  vm_compute. right. left. reflexivity.
Defined.

Lemma cancel_succeeded_witness :
  run (Server.cancel_payment_intent (Some gateway_with_succeeded_intent) cancel_request)
  = ([Called (PaymentIntentsRetrieve (Str "pi_1"))],
     inr (mkResponse 409
            (Obj [("error", Str "Payment already succeeded and cannot be canceled");
                  ("status", Str "succeeded");
                  ("paymentIntent", succeeded_intent)]))).
Proof.
  apply (cancel_succeeded gateway_with_succeeded_intent cancel_request eq_refl
           (conj eq_refl eq_refl) succeeded_intent eq_refl eq_refl).
Defined.

Lemma cancel_already_cancelled_witness :
  run (Server.cancel_payment_intent (Some gateway_with_cancelled_intent) cancel_request)
  = ([Called (PaymentIntentsRetrieve (Str "pi_1"))],
     inr (mkResponse 200
            (Obj [("error", Str "Payment already cancelled");
                  ("status", Str "succeeded");
                  ("paymentIntent", cancelled_intent)]))).
Proof.
  apply (cancel_already_cancelled gateway_with_cancelled_intent cancel_request eq_refl
           (conj eq_refl eq_refl) cancelled_intent eq_refl eq_refl).
Defined.

Lemma cancel_other_witness :
  issued (run (Server.cancel_payment_intent (Some gateway_with_canceled_intent)
                 cancel_request))
  = [PaymentIntentsRetrieve (Str "pi_1"); ReadersCancelAction (Str "tmr_1");
     PaymentIntentsCancel (Str "pi_1")]
  /\ answered (run (Server.cancel_payment_intent (Some gateway_with_canceled_intent)
                      cancel_request))
     = Some (mkResponse 500 (Obj [("error", Str (message cannot_cancel))])).
Proof.
  apply (cancel_other gateway_with_canceled_intent cancel_request eq_refl
           (conj eq_refl eq_refl) canceled_intent eq_refl "canceled" eq_refl);
    discriminate.
Defined.

Lemma invoices_sort_is_stable_witness :
  exists sortedInvoices,
    answered (run (Server.invoices numbers_only strings_only
          (Some invoicing_gateway) status_request))
    = Some (mkResponse 200 (Arr sortedInvoices))
    /\ Permutation listed_invoices sortedInvoices
    /\ descending sortedInvoices
    /\ forall r, of_rank r sortedInvoices = of_rank r listed_invoices.
Proof.
  apply (invoices_sort_is_stable numbers_only strings_only invoicing_gateway status_request
           (Obj [("object", Str "list"); ("data", Arr listed_invoices)])
           listed_invoices eq_refl eq_refl).
  repeat constructor.
Defined.

Lemma invoice_payment_chain_witness :
  issued (run (Server.invoices_pay (Some invoice_gateway) pay_request))
  = [InvoicesRetrieve (Str "in_1");
     PaymentIntentsCreate (invoice_intent_params open_invoice);
     InvoicesAttachPayment (Str "in_1") (attach_params new_intent)]
  /\ answered (run (Server.invoices_pay (Some invoice_gateway) pay_request))
     = Some (mkResponse 200 (Obj [("paymentIntentId", Str "pi_1")])).
Proof.
  apply (invoice_payment_chain invoice_gateway pay_request open_invoice new_intent);
    reflexivity.
Defined.

Lemma missing_invoice_creates_nothing_witness :
  run (Server.invoices_pay (Some no_invoice_gateway) pay_request)
  = ([Called (InvoicesRetrieve (Str "in_1"))],
     inr (mkResponse 404 (Obj [("error", Str "Invoice not found")]))).
Proof.
  apply (missing_invoice_creates_nothing no_invoice_gateway pay_request Null);
    reflexivity.
Defined.

Lemma webhook_without_secret_witness :
  run (Server.webhook strings_only (Some accepting) unconfigured_env webhook_request)
  = ([Console Error "STRIPE_WEBHOOK_SECRET is not set" []],
     inr (mkResponse 500 (Obj [("error", Str "Webhook secret not configured")]))).
Proof.
  apply (webhook_without_secret strings_only (Some accepting) unconfigured_env webhook_request).
  reflexivity.
Defined.

Lemma verified_event_is_acknowledged_witness :
  run (Server.webhook strings_only (Some signing_gateway) configured_env raw_request)
  = ([Called (WebhooksConstructEvent (Str delivery_text) (Str delivery_signature)
                "whsec_test");
      Console Warn "Unhandled event type: charge.refunded" []],
     inr (mkResponse 200 (Obj [("received", Bool true)]))).
Proof.
  apply (verified_event_is_acknowledged strings_only signing_gateway configured_env
           raw_request "whsec_test" refund_event "charge.refunded");
    reflexivity.
Defined.

Lemma serverless_rejects_witness :
  run (Serverless.create_payment_intent numbers_only None infinite_amount_request)
  = ([], inr (mkResponse 400 (Obj [("error", Str "Invalid amount provided.")]))).
Proof.
  apply (serverless_rejects numbers_only None infinite_amount_request PrimFloat.infinity);
    reflexivity.
Defined.

Lemma serverless_gateway_failure_witness :
  snd (run (Serverless.handle numbers_only (Some failing_gateway) Serverless.Customers
              status_request))
  = inl unavailable.
Proof.
  apply (serverless_gateway_failure numbers_only failing_gateway Serverless.Customers
           status_request unavailable).
  reflexivity.
Defined.

Lemma serverless_uninitialized_is_unanswered_witness :
  issued (run (Serverless.handle numbers_only None Serverless.ConnectionToken status_request))
  = []
  /\ exists e,
       snd (run (Serverless.handle numbers_only None Serverless.ConnectionToken
                   status_request)) = inl e
       /\ code e = None.
Proof.
  apply (serverless_uninitialized_is_unanswered numbers_only Serverless.ConnectionToken
           status_request).
  reflexivity.
Defined.

Lemma serverless_location_checked_first_witness :
  run (Serverless.create_location None (post location_with_empty_label))
  = ([], inr (mkResponse 400 (Obj [("error", Str "Missing required address fields")]))).
Proof.
  apply (serverless_location_checked_first None (post location_with_empty_label));
    reflexivity.
Defined.

Lemma legacy_unparseable_body_witness :
  body (post (Legacy.parse_body strict_parse ["amount="; "12"])) = Obj []
  /\ answered (run (Legacy.create_payment_intent numbers_only None
                      (post (Legacy.parse_body strict_parse ["amount="; "12"]))))
     = Some (mkResponse 400 (Obj [("error", Str "Invalid amount provided.")]))
  /\ issued (run (Legacy.create_payment_intent numbers_only None
                    (post (Legacy.parse_body strict_parse ["amount="; "12"])))) = []
  /\ run (Legacy.create_location None
            (post (Legacy.parse_body strict_parse ["amount="; "12"])))
     = ([], inr (mkResponse 400 (Obj [("error", Str "Missing required address fields")]))).
Proof.
  apply (legacy_unparseable_body strict_parse numbers_only None ["amount="; "12"]
           unexpected_token).
  reflexivity.
Defined.

Lemma legacy_null_body_witness :
  (exists e,
     run (Legacy.create_payment_intent numbers_only (Some accepting)
            (post (Legacy.parse_body strict_parse ["nu"; "ll"]))) = ([], inl e)
     /\ code e = None)
  /\ (exists e,
        run (Legacy.create_location (Some accepting)
               (post (Legacy.parse_body strict_parse ["nu"; "ll"]))) = ([], inl e)
        /\ code e = None).
Proof.
  apply (legacy_null_body strict_parse numbers_only (Some accepting) ["nu"; "ll"]).
  reflexivity.
Defined.
